(** * create_timelapse_video.py: a shallow embedding and its properties

    The script selects the images of one calendar day, writes a concat
    manifest, launches ffmpeg, follows its progress output and writes a JSON
    sidecar.  Pure helpers are Rocq functions; the orchestrator
    [create_timelapse] runs in a small state-and-exception monad over an
    explicit record of what the operating system answers.

    Text is modelled as [string] restricted to ASCII, Python [int] as [Z]. *)

From Stdlib Require Import ZArith List String Ascii Bool Lia.
From Stdlib Require Import Sorted Permutation DecimalString.
From Stdlib Require DecimalPos DecimalZ.
Import ListNotations.

Local Open Scope string_scope.
Local Open Scope Z_scope.

(** ** Python string operations used by the script *)

Module PyStr.

(** [str(i)] for an [int].  CPython refuses to print more than 4300
    digits; the integers the script prints (settings, the test amount, a
    count of images) were read from text by [int] and stay below that. *)
Definition str_of_Z (z : Z) : string :=
  NilEmpty.string_of_int (Z.to_int z).

(** [s.replace(old, new)] where [old] and [new] are single characters. *)
Fixpoint replace_char (old new : ascii) (s : string) : string :=
  match s with
  | EmptyString => EmptyString
  | String c s' =>
      String (if Ascii.eqb c old then new else c) (replace_char old new s')
  end.

(** [s.replace(old, new)] for arbitrary [old]: occurrences are replaced
    left to right without overlap.  [skip] counts the characters of the
    occurrence just replaced that are still to be dropped. *)
Fixpoint replace_from (old new : string) (skip : nat) (s : string) : string :=
  match s with
  | EmptyString => EmptyString
  | String c s' =>
      match skip with
      | S k => replace_from old new k s'
      | O =>
          if prefix old s
          then new ++ replace_from old new (Nat.pred (String.length old)) s'
          else String c (replace_from old new O s')
      end
  end.

(** With an empty [old], Python inserts [new] before every character and
    at the end. *)
Fixpoint intersperse (new : string) (s : string) : string :=
  match s with
  | EmptyString => new
  | String c s' => new ++ String c (intersperse new s')
  end.

Definition replace (old new s : string) : string :=
  match old with
  | EmptyString => intersperse new s
  | String _ _ => replace_from old new O s
  end.

(** ASCII characters for which [str.isspace] holds. *)
Definition is_space (c : ascii) : bool :=
  let k := nat_of_ascii c in
  ((9 <=? k) && (k <=? 13) || (28 <=? k) && (k <=? 32))%nat.

Fixpoint lstrip (s : string) : string :=
  match s with
  | EmptyString => EmptyString
  | String c s' => if is_space c then lstrip s' else s
  end.

Fixpoint rstrip (s : string) : string :=
  match s with
  | EmptyString => EmptyString
  | String c s' =>
      match rstrip s' with
      | EmptyString => if is_space c then EmptyString else String c EmptyString
      | r => String c r
      end
  end.

Definition strip (s : string) : string := rstrip (lstrip s).

Definition startswith (s p : string) : bool := prefix p s.

(** [s.split(sep)] for a one-character separator. *)
Fixpoint split (sep : ascii) (s : string) : list string :=
  match s with
  | EmptyString => [EmptyString]
  | String c s' =>
      if Ascii.eqb c sep then EmptyString :: split sep s'
      else match split sep s' with
           | h :: t => String c h :: t
           | [] => [String c EmptyString]
           end
  end.

Definition digit_of (c : ascii) : option Z :=
  let k := Z.of_nat (nat_of_ascii c) in
  if (48 <=? k) && (k <=? 57) then Some (k - 48) else None.

(** Decimal digits with single underscores allowed between two digits, as
    [int] accepts them.  [prev] tells whether the previous character was
    a digit. *)
Fixpoint int_digits (prev : bool) (acc : Z) (s : string) : option Z :=
  match s with
  | EmptyString => if prev then Some acc else None
  | String c s' =>
      match digit_of c with
      | Some d => int_digits true (10 * acc + d) s'
      | None =>
          if Ascii.eqb c "_" && prev then int_digits false acc s' else None
      end
  end.

(** The longest leading run of digits and underscores, and what follows. *)
Fixpoint digit_run (s : string) : string * string :=
  match s with
  | EmptyString => (EmptyString, EmptyString)
  | String c s' =>
      if (match digit_of c with Some _ => true | None => false end)
         || Ascii.eqb c "_"
      then (String c (fst (digit_run s')), snd (digit_run s'))
      else (EmptyString, s)
  end.

Fixpoint count_digits (s : string) : Z :=
  match s with
  | EmptyString => 0
  | String c s' =>
      match digit_of c with
      | Some _ => 1 + count_digits s'
      | None => count_digits s'
      end
  end.

(** [sys.get_int_max_str_digits()] as CPython sets it by default. *)
Definition max_str_digits : Z := 4300.

(** What [int(s)] does with a string: a value, [ValueError] for an invalid
    literal, or [ValueError] because the literal has more digits than
    [max_str_digits]. *)
Inductive int_result :=
| Parsed (z : Z)
| Invalid
| TooManyDigits (digits : Z).

(** [int(s)] in base ten: surrounding white space, an optional sign, then
    the run of digits and underscores.  A misplaced underscore or an empty
    run is an invalid literal; then the digits are counted against the
    limit; then whatever follows the run makes the literal invalid. *)
Definition int_result_of (s : string) : int_result :=
  let t := strip s in
  let signed :=
    match t with
    | String "+" r => (1, r)
    | String "-" r => (-1, r)
    | _ => (1, t)
    end in
  let run := fst (digit_run (snd signed)) in
  let rest := snd (digit_run (snd signed)) in
  match int_digits false 0 run with
  | None => Invalid
  | Some v =>
      if max_str_digits <? count_digits run then TooManyDigits (count_digits run)
      else if String.eqb rest "" then Parsed (fst signed * v)
      else Invalid
  end.

(** [int(s)] where only the value matters; [None] stands for [ValueError]. *)
Definition int (s : string) : option Z :=
  match int_result_of s with
  | Parsed z => Some z
  | _ => None
  end.

Fixpoint contains (c : ascii) (s : string) : bool :=
  match s with
  | EmptyString => false
  | String a s' => Ascii.eqb a c || contains c s'
  end.

Definition double_quote : ascii := ascii_of_nat 34.
Definition backslash : ascii := ascii_of_nat 92.

Definition hex_digit (k : nat) : ascii :=
  match get k "0123456789abcdef" with
  | Some c => c
  | None => "0"%char
  end.

(** One character of [repr(s)] for the quote character in use. *)
Definition repr_char (quote c : ascii) : string :=
  let k := nat_of_ascii c in
  if Ascii.eqb c quote || Ascii.eqb c backslash
  then String backslash (String c EmptyString)
  else if Nat.eqb k 9 then String backslash "t"
  else if Nat.eqb k 10 then String backslash "n"
  else if Nat.eqb k 13 then String backslash "r"
  else if (Nat.ltb k 32 || Nat.leb 127 k)%bool
  then String backslash
         (String "x" (String (hex_digit (Nat.div k 16))
                        (String (hex_digit (Nat.modulo k 16)) EmptyString)))
  else String c EmptyString.

Fixpoint repr_body (quote : ascii) (s : string) : string :=
  match s with
  | EmptyString => EmptyString
  | String c s' => repr_char quote c ++ repr_body quote s'
  end.

(** [repr(s)] for ASCII text: single quotes, unless the text holds a single
    quote and no double quote; the quote in use, the backslash and the
    control characters are escaped. *)
Definition repr (s : string) : string :=
  let quote :=
    if contains "'" s && negb (contains double_quote s)
    then double_quote else "'"%char in
  String quote (repr_body quote s ++ String quote EmptyString).

(** [sep.join(parts)]. *)
Definition join (sep : string) (parts : list string) : string :=
  String.concat sep parts.

End PyStr.

(** ** Exceptions *)

(** A Python exception that derives from [Exception]: its class and the text
    [str(e)] gives. *)
Record Exn := PyExc { exn_class : string; exn_text : string }.

Definition ValueError (msg : string) : Exn := PyExc "ValueError" msg.
Definition IndexError (msg : string) : Exn := PyExc "IndexError" msg.
Definition OverflowError (msg : string) : Exn := PyExc "OverflowError" msg.

(** ** Progress monitor *)

(** The part of a [tqdm] bar the script reads and writes: the expected total
    and the counter [n].  [tqdm.update(k)] adds [k] to the counter, whatever
    the sign of [k]; what else it does is in [progress_step]. *)
Record tqdm := Tqdm { total : Z; n : Z }.

Definition tqdm_new (total_frames : Z) : tqdm := Tqdm total_frames 0.

Definition update (bar : tqdm) (k : Z) : tqdm := Tqdm (total bar) (n bar + k).

(** ** The outside world *)

(** What the libraries and the operating system answer during one run.  The
    formatting functions of [datetime] are kept abstract; so are the
    directory listing, the clock, and which calls fail:
    - [getmtime p] is [datetime.fromtimestamp(os.path.getmtime(p))], which
      raises when [p] cannot be examined (a dangling link, a file gone since
      the listing);
    - [open_w p] is the outcome of writing the file [p] as a whole (open,
      write, close), [None] when all of it succeeds; a failure is not split
      into before and after the file was created, so the record of effects
      does not tell whether a partial file stays behind;
    - [tqdm_display bar] and [tqdm_close bar] tell whether redrawing the bar
      after an update, and closing it, raise: drawing turns the counter into
      a float, which fails beyond the float range, and whether an update
      redraws depends on the time elapsed. *)
Record World := {
  strftime_date : Z -> string -> string;
  str_date : Z -> string;
  strftime_datetime : Z -> string -> string;
  str_timedelta : Z -> string;
  glob : string -> list string;
  getmtime : string -> Exn + Z;
  open_w : string -> option Exn;
  makedirs_fail : string -> option Exn;
  popen : list string -> Exn + list string;
  getsize : string -> Exn + Z;
  now_start : Z;
  now_end : Z;
  tqdm_display : tqdm -> option Exn;
  tqdm_close : tqdm -> option Exn
}.

Inductive Severity := Info | Warning | Error.

Inductive JValue := JStr (s : string) | JInt (z : Z).

(** What a run does to the outside world, in order.  [Logged sev color m]
    is a call of [logger.info], [logger.warning] or [logger.error] with [m]
    wrapped in the colour codes of [color]. *)
Inductive Event :=
| Logged (sev : Severity) (color message : string)
| WroteText (path content : string)
| WroteJson (path : string) (doc : list (string * JValue))
| MadeDirs (path : string)
| Launched (argv : list string).

(** The state a run threads: the folders that exist and the effects so far. *)
Record State := { dirs : list string; events : list Event }.

(** What one turn of the [while True] loop of [parse_ffmpeg_progress] does
    with the raw line it read. *)
Inductive loop_step :=
| Break
| Continue (bar : tqdm)
| Raise (e : Exn).

Definition progress_step (w : World) (bar : tqdm) (raw : string) : loop_step :=
  let line := PyStr.strip raw in
  if String.eqb line "" then Break
  else if PyStr.startswith line "frame=" then
    match nth_error (PyStr.split "=" line) 1 with
    | None => Raise (IndexError "list index out of range")
    | Some field =>
        match PyStr.int_result_of (PyStr.strip field) with
        | PyStr.Invalid =>
            Raise (ValueError
                     ("invalid literal for int() with base 10: "
                      ++ substring 0 200 (PyStr.repr (PyStr.strip field))))
        | PyStr.TooManyDigits digits =>
            Raise (ValueError
                     ("Exceeds the limit (4300 digits) for integer string "
                      ++ "conversion: value has " ++ PyStr.str_of_Z digits
                      ++ " digits; use sys.set_int_max_str_digits() "
                      ++ "to increase the limit"))
        | PyStr.Parsed frame =>
            let bar' := update bar (frame - n bar) in
            match tqdm_display w bar' with
            | Some e => Raise e
            | None => Continue bar'
            end
        end
    end
  else Continue bar.

(** The loop itself.  [stdout] is what the child process still has to say,
    one entry per line; once it is exhausted [readline] returns the empty
    string and the loop ends. *)
Fixpoint progress_loop (w : World) (bar : tqdm) (stdout : list string)
  : Exn + tqdm :=
  match stdout with
  | [] => inr bar
  | raw :: rest =>
      match progress_step w bar raw with
      | Break => inr bar
      | Raise e => inl e
      | Continue bar' => progress_loop w bar' rest
      end
  end.

(** [parse_ffmpeg_progress(ffmpeg_process, total_frames)]: the bar as it
    stands when it has been closed. *)
Definition parse_ffmpeg_progress (w : World) (stdout : list string)
    (total_frames : Z) : Exn + tqdm :=
  match progress_loop w (tqdm_new total_frames) stdout with
  | inl e => inl e
  | inr bar =>
      match tqdm_close w bar with
      | Some e => inl e
      | None => inr bar
      end
  end.

(** The frame number a status line carries, if it is a [frame=] line with a
    readable integer. *)
Definition frame_of_line (raw : string) : option Z :=
  let line := PyStr.strip raw in
  if String.eqb line "" then None
  else if PyStr.startswith line "frame=" then
    match nth_error (PyStr.split "=" line) 1 with
    | None => None
    | Some field => PyStr.int (PyStr.strip field)
    end
  else None.

(** ** Paths, dates and numbers *)

Definition nl : string := String (ascii_of_nat 10) EmptyString.

(** [os.path.join(a, b)] on a POSIX system. *)
Definition path_join (a b : string) : string :=
  if PyStr.startswith b "/" then b
  else if String.eqb a "" then b
  else if String.eqb (substring (Nat.pred (String.length a)) 1 a) "/" then a ++ b
  else a ++ "/" ++ b.

(** [sorted(names)]: strings compare character by character, so two equal
    names are the same string and any correct sort gives the same list. *)
Fixpoint insert_sorted (x : string) (l : list string) : list string :=
  match l with
  | [] => [x]
  | y :: t => if String.leb x y then x :: l else y :: insert_sorted x t
  end.

Fixpoint sorted (l : list string) : list string :=
  match l with
  | [] => []
  | x :: t => insert_sorted x (sorted t)
  end.

(** [l[:k]]. *)
Definition slice_to (k : Z) (l : list string) : list string :=
  if 0 <=? k then firstn (Z.to_nat k) l
  else firstn (Z.to_nat (Z.of_nat (List.length l) + k)) l.

(** A [date] is its proleptic Gregorian ordinal ([date.toordinal()]); a naive
    [datetime] and a [time] count microseconds, from midnight before ordinal
    0 and from midnight of the day; a [timedelta] counts microseconds. *)
Definition usec_per_day : Z := 86400000000.
Definition MAXORDINAL : Z := 3652059.

Definition combine (d : Z) (t : Z) : Z := d * usec_per_day + t.

Definition date_in_range (d : Z) : bool := (1 <=? d) && (d <=? MAXORDINAL).

(** [d + timedelta(days=k)] for a date. *)
Definition date_add_days (d k : Z) : Exn + Z :=
  if date_in_range (d + k) then inr (d + k)
  else inl (OverflowError "date value out of range").

(** [dt + timedelta(days=k)] for a datetime. *)
Definition datetime_add_days (dt k : Z) : Exn + Z :=
  let r := dt + k * usec_per_day in
  if date_in_range (r / usec_per_day) then inr r
  else inl (OverflowError "date value out of range").

(** [datetime.strptime(s, "%H:%M").time()]: the hour is two digits from 00
    to 23 or else one digit, the minute two digits from 00 to 59 or else one
    digit, and nothing may follow. *)
Definition parse_hour (s : string) : option (Z * string) :=
  match s with
  | String a (String b r) =>
      match PyStr.digit_of a, PyStr.digit_of b with
      | Some x, Some y =>
          if (x =? 2) && (y <=? 3) || (x <=? 1) then Some (10 * x + y, r)
          else Some (x, String b r)
      | Some x, None => Some (x, String b r)
      | None, _ => None
      end
  | String a r => option_map (fun x => (x, r)) (PyStr.digit_of a)
  | EmptyString => None
  end.

Definition parse_minute (s : string) : option (Z * string) :=
  match s with
  | String a (String b r) =>
      match PyStr.digit_of a, PyStr.digit_of b with
      | Some x, Some y =>
          if x <=? 5 then Some (10 * x + y, r) else Some (x, String b r)
      | Some x, None => Some (x, String b r)
      | None, _ => None
      end
  | String a r => option_map (fun x => (x, r)) (PyStr.digit_of a)
  | EmptyString => None
  end.

Definition strptime_HM (s : string) : Exn + Z :=
  let mismatch :=
    ValueError ("time data " ++ PyStr.repr s ++ " does not match format "
                ++ PyStr.repr "%H:%M") in
  match parse_hour s with
  | Some (h, String ":" r) =>
      match parse_minute r with
      | Some (m, EmptyString) => inr ((h * 60 + m) * 60000000)
      | Some (_, rest) => inl (ValueError ("unconverted data remains: " ++ rest))
      | None => inl mismatch
      end
  | _ => inl mismatch
  end.

(** [f"{num / den:.2f}"] for [0 <= num] and [0 < den]: the quotient rounded
    to two decimals, a tie going to the even neighbour.  The script divides a
    byte count by [1024 * 1024]; below [2^53] bytes that float division is
    exact, and the formatting rounds the exact value. *)
Definition round_half_even (num den : Z) : Z :=
  let q := num / den in
  let r := num mod den in
  if 2 * r <? den then q
  else if den <? 2 * r then q + 1
  else if Z.even q then q else q + 1.

Definition two_digits (k : Z) : string :=
  if k <? 10 then "0" ++ PyStr.str_of_Z k else PyStr.str_of_Z k.

Definition format_2f (num den : Z) : string :=
  let c := round_half_even (num * 100) den in
  PyStr.str_of_Z (c / 100) ++ "." ++ two_digits (c mod 100).

(** ** Settings and arguments *)

Record ImageInput := {
  ii_folder : string;
  ii_folder_structure : string;
  ii_extension : string;
  ii_morning_to_morning : bool;
  ii_morning_time : string
}.

Record VideoOutput := {
  vo_folder : string;
  vo_folder_structure : string;
  vo_video_filter : string;
  vo_codec : string;
  vo_crf : Z;
  vo_preset : string;
  vo_max_bitrate : string;
  vo_min_bitrate : string;
  vo_buffer_size : string;
  vo_video_size : string
}.

Record Filename := {
  fn_prefix : string;
  fn_suffix : string;
  fn_extension : string;
  fn_append_metadata : bool
}.

Record Metadata := { md_save_to_file : bool }.

(** The parsed [config.yaml], as far as [create_timelapse] reads it. *)
Record Config := {
  image_input : ImageInput;
  video_output : VideoOutput;
  filename : Filename;
  metadata : Metadata
}.

(** The parsed command line: [--test-amount] is an [int] or absent. *)
Record Args := { test_amount : option Z }.

(** Truth value of [args.test_amount]: [None] and [0] are false. *)
Definition test_amount_set (a : Args) : option Z :=
  match test_amount a with
  | Some k => if k =? 0 then None else Some k
  | None => None
  end.

(** ** File names and the encoder command *)

Definition sanitize_for_filename (value : string) : string :=
  PyStr.replace_char "/" "_"
    (PyStr.replace_char ":" "_" (PyStr.replace_char " " "_" value)).

Definition metadata_parts (config : Config) : list string :=
  let vo := video_output config in
  if fn_append_metadata (filename config) then
    [ "filter-" ++ sanitize_for_filename (vo_video_filter vo);
      "codec-" ++ sanitize_for_filename (vo_codec vo);
      "crf-" ++ sanitize_for_filename (PyStr.str_of_Z (vo_crf vo));
      "preset-" ++ sanitize_for_filename (vo_preset vo);
      "bitrate-" ++ sanitize_for_filename (vo_max_bitrate vo);
      "size-" ++ sanitize_for_filename (vo_video_size vo) ]
  else [].

Definition append_metadata_to_filename (config : Config) (base_filename : string)
  : string :=
  match metadata_parts config with
  | [] => base_filename
  | parts => base_filename ++ "_" ++ PyStr.join "_" parts
  end.

Definition pix_fmt_codecs : list string := ["h264_v4l2m2m"; "libx264"; "libx265"].

Definition codec_needs_pix_fmt (codec : string) : bool :=
  existsb (String.eqb codec) pix_fmt_codecs.

Definition build_ffmpeg_command (config : Config)
    (image_list_file output_path : string) : list string :=
  let vo := video_output config in
  let ffmpeg_command :=
    [ "ffmpeg"; "-y"; "-loglevel"; "error"; "-hide_banner";
      "-f"; "concat"; "-safe"; "0"; "-i"; image_list_file;
      "-vf"; vo_video_filter vo;
      "-c:v"; vo_codec vo;
      "-crf"; PyStr.str_of_Z (vo_crf vo);
      "-preset"; vo_preset vo;
      "-b:v"; vo_max_bitrate vo;
      "-minrate"; vo_min_bitrate vo;
      "-maxrate"; vo_max_bitrate vo;
      "-bufsize"; vo_buffer_size vo;
      "-s"; vo_video_size vo ] in
  let ffmpeg_command :=
    if codec_needs_pix_fmt (vo_codec vo)
    then ((((ffmpeg_command ++ ["-pix_fmt"]) ++ ["yuv420p"])
             ++ ["-color_range"]) ++ ["tv"])%list
    else ffmpeg_command in
  (ffmpeg_command ++ [output_path])%list.

(** ** A state and exception monad *)

Definition M (A : Type) : Type := State -> (Exn + A) * State.

Definition ret {A : Type} (a : A) : M A := fun st => (inr a, st).

Definition bind {A B : Type} (c : M A) (k : A -> M B) : M B :=
  fun st =>
    match c st with
    | (inl e, st') => (inl e, st')
    | (inr a, st') => k a st'
    end.

Definition raise {A : Type} (e : Exn) : M A := fun st => (inl e, st).

Definition lift {A : Type} (r : Exn + A) : M A :=
  match r with
  | inl e => raise e
  | inr a => ret a
  end.

Definition emit (ev : Event) : M unit :=
  fun st => (inr tt, {| dirs := dirs st; events := (events st ++ [ev])%list |}).

(** [try: c except Exception as e: h e]. *)
Definition try_except {A : Type} (c : M A) (h : Exn -> M A) : M A :=
  fun st =>
    match c st with
    | (inl e, st') => h e st'
    | (inr a, st') => (inr a, st')
    end.

Declare Scope py_scope.
Delimit Scope py_scope with py.
Notation "x <- c ;; k" := (bind c (fun x => k))
  (at level 61, c at next level, right associativity) : py_scope.
Notation "c ;;; k" := (bind c (fun _ => k))
  (at level 61, right associativity) : py_scope.
Local Open Scope py_scope.

(** ** The script's functions *)

Section Run.

Variable w : World.
Variable config : Config.
Variable args : Args.

Definition log_with_color (message level color : string) : M unit :=
  if String.eqb level "info" then emit (Logged Info color message)
  else if String.eqb level "error" then emit (Logged Error color message)
  else if String.eqb level "warning" then emit (Logged Warning color message)
  else ret tt.

Definition get_image_files (date : Z) : list string :=
  let folder_structure := ii_folder_structure (image_input config) in
  let folder :=
    path_join (ii_folder (image_input config))
              (strftime_date w date folder_structure) in
  let search_pattern :=
    path_join folder ("*" ++ ii_extension (image_input config)) in
  sorted (glob w search_pattern).

Definition manifest_line (image : string) : string :=
  "file '" ++ image ++ "'" ++ nl.

Definition create_ffmpeg_file_list (images : list string) : M string :=
  let temp_list_file := "ffmpeg_images.txt" in
  match open_w w temp_list_file with
  | Some e => raise e
  | None =>
      emit (WroteText temp_list_file
              (String.concat "" (map manifest_line images))) ;;;
      ret temp_list_file
  end.

Definition save_metadata_to_json (output_path : string)
    (doc : list (string * JValue)) : M unit :=
  let json_filename :=
    PyStr.replace (fn_extension (filename config)) ".json" output_path in
  match open_w w json_filename with
  | Some e => raise e
  | None =>
      emit (WroteJson json_filename doc) ;;;
      log_with_color ("Metadata saved to " ++ json_filename) "info" "green"
  end.

(** [os.makedirs(path, exist_ok=True)]. *)
Definition makedirs_exist_ok (path : string) : M unit :=
  fun st =>
    if existsb (String.eqb path) (dirs st) then (inr tt, st)
    else match makedirs_fail w path with
         | Some e => (inl e, st)
         | None =>
             (inr tt, {| dirs := path :: dirs st;
                         events := (events st ++ [MadeDirs path])%list |})
         end.

(** [[img for img in images if keep(mtime of img)]]: the images are examined
    from left to right, and the first modification time that cannot be read
    ends the comprehension with its exception. *)
Fixpoint filter_by_mtime (keep : Z -> bool) (images : list string)
  : Exn + list string :=
  match images with
  | [] => inr []
  | img :: rest =>
      match getmtime w img with
      | inl e => inl e
      | inr m =>
          match filter_by_mtime keep rest with
          | inl e => inl e
          | inr kept => inr (if keep m then img :: kept else kept)
          end
      end
  end.

(** Lines 146 to 167 of [create_timelapse]: which images belong to the run. *)
Definition select_images (date : Z) : M (list string) :=
  if ii_morning_to_morning (image_input config) then
    log_with_color "Applying morning-to-morning logic" "info" "cyan" ;;;
    morning_time <- lift (strptime_HM (ii_morning_time (image_input config))) ;;
    let start_time_morning := combine date morning_time in
    end_time_morning <- lift (datetime_add_days start_time_morning 1) ;;
    let today_images := get_image_files date in
    today_filtered_images <-
      lift (filter_by_mtime (fun m => start_time_morning <=? m) today_images) ;;
    tomorrow <- lift (date_add_days date 1) ;;
    let tomorrow_images := get_image_files tomorrow in
    tomorrow_filtered_images <-
      lift (filter_by_mtime (fun m => m <=? end_time_morning) tomorrow_images) ;;
    ret (today_filtered_images ++ tomorrow_filtered_images)%list
  else ret (get_image_files date).

(** Lines 173 to 176: the optional cut to the first images. *)
Definition limit_images (images : list string) : M (list string) :=
  match test_amount_set args with
  | Some k =>
      log_with_color ("Using only the first " ++ PyStr.str_of_Z k
                      ++ " images for testing") "info" "magenta" ;;;
      ret (slice_to k images)
  | None => ret images
  end.

(** Lines 181 to 193: the output folder is made and the path put together. *)
Definition build_output_path (date : Z) : M string :=
  let vo := video_output config in
  let output_folder :=
    path_join (vo_folder vo) (strftime_date w date (vo_folder_structure vo)) in
  makedirs_exist_ok output_folder ;;;
  let base_filename :=
    fn_prefix (filename config) ++ strftime_date w date "%Y_%m_%d"
    ++ fn_suffix (filename config) in
  let output_filename := append_metadata_to_filename config base_filename in
  let output_filename := output_filename ++ fn_extension (filename config) in
  ret (path_join output_folder output_filename).

(** Lines 218 to 234: the sidecar document. *)
Definition collect_metadata (date : Z) (output_path : string) (file_size : Z)
    (start_time end_time : Z) (images : list string)
  : list (string * JValue) :=
  let vo := video_output config in
  [ ("date", JStr (strftime_date w date "%Y-%m-%d"));
    ("output_file", JStr output_path);
    ("file_size_MB", JStr (format_2f file_size (1024 * 1024)));
    ("duration", JStr (str_timedelta w (end_time - start_time)));
    ("start_time", JStr (strftime_datetime w start_time "%Y-%m-%d %H:%M:%S"));
    ("end_time", JStr (strftime_datetime w end_time "%Y-%m-%d %H:%M:%S"));
    ("number_of_images", JInt (Z.of_nat (List.length images)));
    ("image_input_folder", JStr (ii_folder (image_input config)));
    ("video_filter", JStr (vo_video_filter vo));
    ("codec", JStr (vo_codec vo));
    ("crf", JInt (vo_crf vo));
    ("preset", JStr (vo_preset vo));
    ("bitrate", JStr (vo_max_bitrate vo));
    ("video_size", JStr (vo_video_size vo));
    ("test_amount",
      match test_amount_set args with
      | Some k => JInt k
      | None => JStr "full"
      end) ].

(** [with subprocess.Popen(cmd, ...) as process]: the child's output. *)
Definition run_popen (argv : list string) : M (list string) :=
  match popen w argv with
  | inl e => raise e
  | inr stdout => emit (Launched argv) ;;; ret stdout
  end.

(** Lines 178 to 236, reached with a non-empty selection. *)
Definition encode_and_record (date : Z) (start_time : Z) (images : list string)
  : M unit :=
  image_list_file <- create_ffmpeg_file_list images ;;
  output_path <- build_output_path date ;;
  let ffmpeg_command :=
    (build_ffmpeg_command config image_list_file output_path
       ++ ["-progress"; "-"; "-nostats"])%list in
  log_with_color ("Running FFmpeg command: " ++ PyStr.join " " ffmpeg_command)
                 "info" "cyan" ;;;
  stdout <- run_popen ffmpeg_command ;;
  _ <- lift (parse_ffmpeg_progress w stdout (Z.of_nat (List.length images))) ;;
  let end_time := now_end w in
  let duration := end_time - start_time in
  file_size <- lift (getsize w output_path) ;;
  log_with_color ("Timelapse created successfully: " ++ output_path)
                 "info" "green" ;;;
  log_with_color ("Timelapse duration: " ++ str_timedelta w duration)
                 "info" "blue" ;;;
  log_with_color ("Output file size: " ++ format_2f file_size (1024 * 1024)
                  ++ " MB") "info" "blue" ;;;
  if md_save_to_file (metadata config) then
    save_metadata_to_json output_path
      (collect_metadata date output_path file_size start_time end_time images)
  else ret tt.

(** The body of the [try] statement of [create_timelapse]. *)
Definition create_timelapse_try (date : Z) : M unit :=
  let start_time := now_start w in
  log_with_color ("Creating timelapse for date: " ++ str_date w date)
                 "info" "green" ;;;
  images <- select_images date ;;
  match images with
  | [] =>
      log_with_color ("No images found for the selected date: "
                      ++ str_date w date) "error" "red"
  | _ :: _ =>
      images <- limit_images images ;;
      encode_and_record date start_time images
  end.

Definition create_timelapse (date : Z) : M unit :=
  try_except (create_timelapse_try date)
    (fun e =>
       log_with_color ("Error creating timelapse: " ++ exn_text e)
                      "error" "red").

End Run.

(** ** A concrete installation, for examples *)

Module Sample.

Definition config : Config := {|
  image_input := {|
    ii_folder := "/var/www/html/images";
    ii_folder_structure := "%Y/%m/%d";
    ii_extension := ".jpg";
    ii_morning_to_morning := true;
    ii_morning_time := "06:00" |};
  video_output := {|
    vo_folder := "/var/www/html/videos";
    vo_folder_structure := "%Y/%m";
    vo_video_filter := "fps=25, scale=1920:1080";
    vo_codec := "libx264";
    vo_crf := 23;
    vo_preset := "medium";
    vo_max_bitrate := "5M";
    vo_min_bitrate := "1M";
    vo_buffer_size := "10M";
    vo_video_size := "1920x1080" |};
  filename := {|
    fn_prefix := "timelapse_";
    fn_suffix := "";
    fn_extension := ".mp4";
    fn_append_metadata := true |};
  metadata := {| md_save_to_file := true |}
|}.

(** The same settings with the plain one-day selection and a short name. *)
Definition config_plain : Config := {|
  image_input := {|
    ii_folder := "/var/www/html/images";
    ii_folder_structure := "%Y/%m/%d";
    ii_extension := ".jpg";
    ii_morning_to_morning := false;
    ii_morning_time := "06:00" |};
  video_output := video_output config;
  filename := {|
    fn_prefix := "timelapse_";
    fn_suffix := "";
    fn_extension := ".mp4";
    fn_append_metadata := false |};
  metadata := {| md_save_to_file := true |}
|}.

(** Ordinals of 2024-01-01 and the two days after it. *)
Definition jan1 : Z := 738886.
Definition jan2 : Z := 738887.
Definition jan3 : Z := 738888.

Definition day_of_month (d : Z) : string :=
  if d =? jan1 then "01" else if d =? jan2 then "02" else "03".

(** [strftime] for the three days, directives [%Y], [%m] and [%d] only. *)
Definition strftime3 (d : Z) (fmt : string) : string :=
  PyStr.replace "%d" (day_of_month d)
    (PyStr.replace "%m" "01" (PyStr.replace "%Y" "2024" fmt)).

Definition hour : Z := 3600000000.

(** Images of the first two days, as the directory listing returns them,
    with their modification times. *)
Definition files : list (string * Z) :=
  [ ("/var/www/html/images/2024/01/01/img_1200.jpg", combine jan1 (12 * hour));
    ("/var/www/html/images/2024/01/01/img_0500.jpg", combine jan1 (5 * hour));
    ("/var/www/html/images/2024/01/01/img_0630.jpg",
       combine jan1 (6 * hour + hour / 2));
    ("/var/www/html/images/2024/01/02/img_0700.jpg", combine jan2 (7 * hour));
    ("/var/www/html/images/2024/01/02/img_0500.jpg", combine jan2 (5 * hour)) ].

Definition listing (pattern : string) : list string :=
  if String.eqb pattern "/var/www/html/images/2024/01/01/*.jpg"
  then map fst (firstn 3 files)
  else if String.eqb pattern "/var/www/html/images/2024/01/02/*.jpg"
  then map fst (skipn 3 files)
  else [].

Definition mtime_of (path : string) : Z :=
  match find (fun f => String.eqb (fst f) path) files with
  | Some f => snd f
  | None => 0
  end.

Definition ffmpeg_output : list string :=
  [ "frame=1" ++ nl; "fps=0.00" ++ nl; "progress=continue" ++ nl;
    "frame=3" ++ nl; "fps=25.0" ++ nl; "progress=end" ++ nl ].

(** A world where every system call succeeds and the encoder leaves a file
    of ten mebibytes after two seconds. *)
Definition world : World := {|
  strftime_date := strftime3;
  str_date := fun d => strftime3 d "%Y-%m-%d";
  strftime_datetime := fun _ _ => "2024-01-04 00:00:00";
  str_timedelta := fun _ => "0:00:02";
  glob := listing;
  getmtime := fun path => inr (mtime_of path);
  open_w := fun _ => None;
  makedirs_fail := fun _ => None;
  popen := fun _ => inr ffmpeg_output;
  getsize := fun _ => inr 10485760;
  now_start := combine (jan3 + 1) 0;
  now_end := combine (jan3 + 1) 2000000;
  tqdm_display := fun _ => None;
  tqdm_close := fun _ => None
|}.

(** The same world without an encoder on the search path. *)
Definition world_no_ffmpeg : World := {|
  strftime_date := strftime3;
  str_date := fun d => strftime3 d "%Y-%m-%d";
  strftime_datetime := fun _ _ => "2024-01-04 00:00:00";
  str_timedelta := fun _ => "0:00:02";
  glob := listing;
  getmtime := fun path => inr (mtime_of path);
  open_w := fun _ => None;
  makedirs_fail := fun _ => None;
  popen := fun _ =>
    inl (PyExc "FileNotFoundError"
               "[Errno 2] No such file or directory: 'ffmpeg'");
  getsize := fun _ => inr 10485760;
  now_start := combine (jan3 + 1) 0;
  now_end := combine (jan3 + 1) 2000000;
  tqdm_display := fun _ => None;
  tqdm_close := fun _ => None
|}.

(** Settings whose file name prefix contains the text of the extension. *)
Definition config_dotted : Config := {|
  image_input := image_input config_plain;
  video_output := video_output config;
  filename := {|
    fn_prefix := "cam.mp4_";
    fn_suffix := "";
    fn_extension := ".mp4";
    fn_append_metadata := false |};
  metadata := {| md_save_to_file := true |}
|}.

Definition no_limit : Args := {| test_amount := None |}.
Definition limit (k : Z) : Args := {| test_amount := Some k |}.

Definition fresh : State := {| dirs := []; events := [] |}.

End Sample.

(** ** Vocabulary of the properties *)

(** The character-wise reading of the sanitizing rule: a space, a colon or a
    slash becomes an underscore, any other character stays. *)
Definition sanitize_char (c : ascii) : ascii :=
  if Ascii.eqb c " " || Ascii.eqb c ":" || Ascii.eqb c "/" then "_"%char else c.

Fixpoint map_string (f : ascii -> ascii) (s : string) : string :=
  match s with
  | EmptyString => EmptyString
  | String c s' => String (f c) (map_string f s')
  end.






Definition string_le (a b : string) : Prop := String.leb a b = true.

Definition is_log (ev : Event) : bool :=
  match ev with
  | Logged _ _ _ => true
  | _ => false
  end.

Definition is_launch (ev : Event) : bool :=
  match ev with
  | Launched _ => true
  | _ => false
  end.

(** How often the encoder was started. *)
Definition launches (evs : list Event) : nat :=
  List.length (filter is_launch evs).

(** The state once [ev] has happened. *)
Definition record_event (st : State) (ev : Event) : State :=
  {| dirs := dirs st; events := (events st ++ [ev])%list |}.

(** The arguments every encoder command starts with. *)
Definition fixed_arguments (config : Config) (image_list_file : string)
  : list string :=
  let vo := video_output config in
  [ "ffmpeg"; "-y"; "-loglevel"; "error"; "-hide_banner";
    "-f"; "concat"; "-safe"; "0"; "-i"; image_list_file;
    "-vf"; vo_video_filter vo;
    "-c:v"; vo_codec vo;
    "-crf"; PyStr.str_of_Z (vo_crf vo);
    "-preset"; vo_preset vo;
    "-b:v"; vo_max_bitrate vo;
    "-minrate"; vo_min_bitrate vo;
    "-maxrate"; vo_max_bitrate vo;
    "-bufsize"; vo_buffer_size vo;
    "-s"; vo_video_size vo ].

(** The pattern [get_image_files] hands to [glob.glob]. *)
Definition image_pattern (w : World) (config : Config) (date : Z) : string :=
  path_join
    (path_join (ii_folder (image_input config))
               (strftime_date w date (ii_folder_structure (image_input config))))
    ("*" ++ ii_extension (image_input config)).

(** The folder the video goes to. *)
Definition output_folder_of (w : World) (config : Config) (date : Z) : string :=
  path_join (vo_folder (video_output config))
            (strftime_date w date (vo_folder_structure (video_output config))).

(** The path of the video: folder, then prefix, date, suffix, the optional
    qualifier and the extension. *)
Definition output_path_of (w : World) (config : Config) (date : Z) : string :=
  path_join (output_folder_of w config date)
    (append_metadata_to_filename config
       (fn_prefix (filename config) ++ strftime_date w date "%Y_%m_%d"
        ++ fn_suffix (filename config))
     ++ fn_extension (filename config)).

(** Whatever state [c] starts in, it only adds effects to the record, and
    what it adds satisfies [P]. *)
Definition extends_by {A : Type} (P : list Event -> Prop) (c : M A) : Prop :=
  forall st : State,
    exists added : list Event,
      events (snd (c st)) = (events st ++ added)%list /\ P added.

Definition at_most_launches (k : nat) (added : list Event) : Prop :=
  (launches added <= k)%nat.

Definition wrote_json_at (path : string) (ev : Event) : bool :=
  match ev with
  | WroteJson p _ => String.eqb p path
  | _ => false
  end.

(** The value stored under [key] in a sidecar document. *)
Definition field (key : string) (doc : list (string * JValue)) : option JValue :=
  option_map snd (find (fun kv => String.eqb (fst kv) key) doc).

(** ** Further vocabulary *)

(** The characters [sanitize_for_filename] removes. *)
Definition unsafe_char (c : ascii) : bool :=
  Ascii.eqb c " " || Ascii.eqb c ":" || Ascii.eqb c "/".

Fixpoint string_forallb (p : ascii -> bool) (s : string) : bool :=
  match s with
  | EmptyString => true
  | String c s' => p c && string_forallb p s'
  end.

(** No space, colon or slash occurs in [s]. *)
Definition filename_safe (s : string) : bool :=
  string_forallb (fun c => negb (unsafe_char c)) s.

(** Further installations and inputs for examples. *)
Module Cases.

(** The world of [Sample] with every directory listing reversed. *)
Definition world_reversed : World := {|
  strftime_date := strftime_date Sample.world;
  str_date := str_date Sample.world;
  strftime_datetime := strftime_datetime Sample.world;
  str_timedelta := str_timedelta Sample.world;
  glob := fun pattern => rev (glob Sample.world pattern);
  getmtime := getmtime Sample.world;
  open_w := open_w Sample.world;
  makedirs_fail := makedirs_fail Sample.world;
  popen := popen Sample.world;
  getsize := getsize Sample.world;
  now_start := now_start Sample.world;
  now_end := now_end Sample.world;
  tqdm_display := tqdm_display Sample.world;
  tqdm_close := tqdm_close Sample.world
|}.

(** The world of [Sample] where one image of the second day is a link to
    a file that is gone: the listing shows it, its modification time cannot
    be read. *)
Definition world_dangling : World := {|
  strftime_date := strftime_date Sample.world;
  str_date := str_date Sample.world;
  strftime_datetime := strftime_datetime Sample.world;
  str_timedelta := str_timedelta Sample.world;
  glob := glob Sample.world;
  getmtime := fun path =>
    if String.eqb path "/var/www/html/images/2024/01/02/img_0700.jpg"
    then inl (PyExc "FileNotFoundError"
                ("[Errno 2] No such file or directory: '" ++ path ++ "'"))
    else getmtime Sample.world path;
  open_w := open_w Sample.world;
  makedirs_fail := makedirs_fail Sample.world;
  popen := popen Sample.world;
  getsize := getsize Sample.world;
  now_start := now_start Sample.world;
  now_end := now_end Sample.world;
  tqdm_display := tqdm_display Sample.world;
  tqdm_close := tqdm_close Sample.world
|}.

(** Settings with a morning time [strptime] cannot read. *)
Definition config_bad_time : Config := {|
  image_input := {|
    ii_folder := "/var/www/html/images";
    ii_folder_structure := "%Y/%m/%d";
    ii_extension := ".jpg";
    ii_morning_to_morning := true;
    ii_morning_time := "6am" |};
  video_output := video_output Sample.config;
  filename := filename Sample.config_plain;
  metadata := {| md_save_to_file := true |}
|}.

(** The plain settings with metadata persistence switched off. *)
Definition config_no_sidecar : Config := {|
  image_input := image_input Sample.config_plain;
  video_output := video_output Sample.config_plain;
  filename := filename Sample.config_plain;
  metadata := {| md_save_to_file := false |}
|}.

(** The world of [Sample] with an encoder that prints an unreadable frame. *)
Definition world_bad_frame : World := {|
  strftime_date := strftime_date Sample.world;
  str_date := str_date Sample.world;
  strftime_datetime := strftime_datetime Sample.world;
  str_timedelta := str_timedelta Sample.world;
  glob := glob Sample.world;
  getmtime := getmtime Sample.world;
  open_w := open_w Sample.world;
  makedirs_fail := makedirs_fail Sample.world;
  popen := fun _ => inr ["frame=1" ++ nl; "frame=N/A" ++ nl];
  getsize := getsize Sample.world;
  now_start := now_start Sample.world;
  now_end := now_end Sample.world;
  tqdm_display := tqdm_display Sample.world;
  tqdm_close := tqdm_close Sample.world
|}.

End Cases.

(** The status line ffmpeg prints for frame number [frame]. *)
Definition frame_line (frame : Z) : string :=
  "frame=" ++ PyStr.str_of_Z frame ++ nl.

(** The number a run of decimal digits stands for, continuing from [acc]. *)
Fixpoint dec_value (acc : Z) (d : Decimal.uint) : Z :=
  match d with
  | Decimal.Nil => acc
  | Decimal.D0 l => dec_value (10 * acc + 0) l
  | Decimal.D1 l => dec_value (10 * acc + 1) l
  | Decimal.D2 l => dec_value (10 * acc + 2) l
  | Decimal.D3 l => dec_value (10 * acc + 3) l
  | Decimal.D4 l => dec_value (10 * acc + 4) l
  | Decimal.D5 l => dec_value (10 * acc + 5) l
  | Decimal.D6 l => dec_value (10 * acc + 6) l
  | Decimal.D7 l => dec_value (10 * acc + 7) l
  | Decimal.D8 l => dec_value (10 * acc + 8) l
  | Decimal.D9 l => dec_value (10 * acc + 9) l
  end.

(** Neither white space nor an equals sign. *)
Definition plain_char (c : ascii) : bool :=
  negb (PyStr.is_space c) && negb (Ascii.eqb c "=").

(** Some occurrence of [ext] in [stem ++ ext] starts inside [stem]. *)
Fixpoint occurs_within (ext stem : string) : bool :=
  match stem with
  | EmptyString => false
  | String _ stem' => prefix ext (stem ++ ext) || occurs_within ext stem'
  end.

Definition is_json (ev : Event) : bool :=
  match ev with
  | WroteJson _ _ => true
  | _ => false
  end.

(** The effects of a run other than log lines. *)
Definition non_log (evs : list Event) : list Event :=
  filter (fun ev => negb (is_log ev)) evs.

(** The images the encoding part of a run works on. *)
Definition used_images (args : Args) (images : list string) : list string :=
  match test_amount_set args with
  | Some k => slice_to k images
  | None => images
  end.

(** The command the orchestrator starts. *)
Definition launched_command (w : World) (config : Config) (date : Z)
  : list string :=
  (build_ffmpeg_command config "ffmpeg_images.txt" (output_path_of w config date)
     ++ ["-progress"; "-"; "-nostats"])%list.

(** What a run on [images] does besides logging when nothing fails, in
    order: the manifest, the output folder unless it is there, the encoder,
    and the sidecar when it is asked for and the output has a size. *)
Definition planned_effects (w : World) (config : Config) (args : Args)
    (date start_time : Z) (images : list string) (st : State) : list Event :=
  let out := output_path_of w config date in
  let folder := output_folder_of w config date in
  ([ WroteText "ffmpeg_images.txt"
       (String.concat "" (map manifest_line images)) ]
   ++ (if existsb (String.eqb folder) (dirs st) then [] else [MadeDirs folder])
   ++ [ Launched (launched_command w config date) ]
   ++ (if md_save_to_file (metadata config) then
         match getsize w out with
         | inr file_size =>
             [ WroteJson
                 (PyStr.replace (fn_extension (filename config)) ".json" out)
                 (collect_metadata w config args date out file_size start_time
                    (now_end w) images) ]
         | inl _ => []
         end
       else []))%list.

(** The state once the selection has been made: one log line for the start
    of the run, one more in the morning-to-morning mode. *)
Definition state_after_selection (w : World) (config : Config) (date : Z)
    (st : State) : State :=
  let st0 :=
    record_event st
      (Logged Info "green" ("Creating timelapse for date: " ++ str_date w date)) in
  if ii_morning_to_morning (image_input config)
  then record_event st0 (Logged Info "cyan" "Applying morning-to-morning logic")
  else st0.

(** The state in which the manifest is written: a further log line when a
    test amount is in force. *)
Definition state_before_encoding (w : World) (config : Config) (args : Args)
    (date : Z) (st : State) : State :=
  match test_amount_set args with
  | Some k =>
      record_event (state_after_selection w config date st)
        (Logged Info "magenta"
           ("Using only the first " ++ PyStr.str_of_Z k ++ " images for testing"))
  | None => state_after_selection w config date st
  end.

(** The manifest line of an image without its line feed. *)
Definition quoted (image : string) : string := "file '" ++ image ++ "'".

(** No line feed occurs in [s]. *)
Definition one_line (s : string) : bool :=
  string_forallb (fun c => negb (Ascii.eqb c (ascii_of_nat 10))) s.

(** The two parts of a morning-to-morning selection for [date] and the
    morning time [t], when [mtime] gives the modification times. *)
Definition today_part (w : World) (config : Config) (mtime : string -> Z)
    (date t : Z) : list string :=
  filter (fun img => combine date t <=? mtime img)
         (get_image_files w config date).

Definition tomorrow_part (w : World) (config : Config) (mtime : string -> Z)
    (date t : Z) : list string :=
  filter (fun img => mtime img <=? combine (date + 1) t)
         (get_image_files w config (date + 1)).

(** * Properties *)

(** ** Progress monitor *)

Lemma update_to_frame (bar : tqdm) (frame : Z) :
  update bar (frame - n bar) = Tqdm (total bar) frame.
Proof.
  unfold update. f_equal. lia.
Qed.

Lemma int_parsed (s : string) (z : Z) :
  PyStr.int s = Some z -> PyStr.int_result_of s = PyStr.Parsed z.
Proof.
  unfold PyStr.int. destruct (PyStr.int_result_of s); congruence.
Qed.



Lemma progress_step_frame (w : World) (bar : tqdm) (raw : string) (frame : Z) :
  frame_of_line raw = Some frame ->
  progress_step w bar raw
  = match tqdm_display w (Tqdm (total bar) frame) with
    | Some e => Raise e
    | None => Continue (Tqdm (total bar) frame)
    end.
Proof.
  unfold frame_of_line, progress_step.
  destruct (String.eqb (PyStr.strip raw) ""); [discriminate |].
  destruct (PyStr.startswith (PyStr.strip raw) "frame="); [| discriminate].
  destruct (nth_error (PyStr.split "=" (PyStr.strip raw)) 1) as [field |];
    [| discriminate].
  intros Hint. rewrite (int_parsed _ _ Hint). cbv zeta.
  now rewrite update_to_frame.
Qed.






(** ** File names *)

Lemma replace_char_map (old new : ascii) (s : string) :
  PyStr.replace_char old new s
  = map_string (fun c => if Ascii.eqb c old then new else c) s.
Proof.
  induction s as [| c s IH]; [reflexivity |].
  cbn [PyStr.replace_char map_string]. now rewrite IH.
Qed.

Lemma map_string_compose (f g : ascii -> ascii) (s : string) :
  map_string f (map_string g s) = map_string (fun c => f (g c)) s.
Proof.
  induction s as [| c s IH]; [reflexivity |].
  cbn [map_string]. now rewrite IH.
Qed.

Lemma map_string_ext (f g : ascii -> ascii) (s : string) :
  (forall c, f c = g c) -> map_string f s = map_string g s.
Proof.
  intros Hfg. induction s as [| c s IH]; [reflexivity |].
  cbn [map_string]. now rewrite Hfg, IH.
Qed.

Lemma three_replacements_char (c : ascii) :
  (let c1 := if Ascii.eqb c " " then "_"%char else c in
   let c2 := if Ascii.eqb c1 ":" then "_"%char else c1 in
   if Ascii.eqb c2 "/" then "_"%char else c2) = sanitize_char c.
Proof.
  unfold sanitize_char. cbv zeta.
  destruct (Ascii.eqb_spec c " ") as [-> | Hsp]; [reflexivity |].
  destruct (Ascii.eqb_spec c ":") as [-> | Hco]; [reflexivity |].
  destruct (Ascii.eqb c "/"); reflexivity.
Qed.

Lemma sanitize_for_filename_chars (value : string) :
  sanitize_for_filename value = map_string sanitize_char value.
Proof.
  unfold sanitize_for_filename.
  rewrite !replace_char_map, !map_string_compose.
  apply map_string_ext. intros c. apply three_replacements_char.
Qed.

(** Claim C5: with metadata in the file name switched on, the qualifier
    appended to the base name is the underscore-joined list of the six
    labelled settings in the order filter, codec, crf, preset, bitrate, size;
    every value is sanitized on its own, character by character, a space, a
    colon or a slash becoming an underscore: ["1920x1080"] stays as it is and
    ["10:00"] becomes ["10_00"]. *)
Theorem metadata_qualifier_layout (config : Config) (base_filename : string) :
  fn_append_metadata (filename config) = true ->
  let vo := video_output config in
  let clean := map_string sanitize_char in
  append_metadata_to_filename config base_filename
  = base_filename ++ "_"
    ++ PyStr.join "_"
         [ "filter-" ++ clean (vo_video_filter vo);
           "codec-" ++ clean (vo_codec vo);
           "crf-" ++ clean (PyStr.str_of_Z (vo_crf vo));
           "preset-" ++ clean (vo_preset vo);
           "bitrate-" ++ clean (vo_max_bitrate vo);
           "size-" ++ clean (vo_video_size vo) ]
  /\ (forall value, sanitize_for_filename value = clean value)
  /\ sanitize_for_filename "1920x1080" = "1920x1080"
  /\ sanitize_for_filename "10:00" = "10_00".
Proof.
  intros Hon vo clean. split; [| split; [| split; reflexivity]].
  - unfold append_metadata_to_filename, metadata_parts. rewrite Hon.
    fold vo. now rewrite !sanitize_for_filename_chars.
  - apply sanitize_for_filename_chars.
Qed.

Lemma metadata_qualifier_layout_witness :
  fn_append_metadata (filename Sample.config) = true
  /\ append_metadata_to_filename Sample.config "timelapse_2024_01_01"
     = "timelapse_2024_01_01_filter-fps=25,_scale=1920_1080_codec-libx264_crf-23_preset-medium_bitrate-5M_size-1920x1080".
Proof.
  split; [reflexivity |].
  rewrite (proj1 (metadata_qualifier_layout Sample.config
                    "timelapse_2024_01_01" eq_refl)).
  reflexivity.
Defined.

(** ** Encoder command *)

Lemma codec_needs_pix_fmt_iff (codec : string) :
  codec_needs_pix_fmt codec = true
  <-> codec = "h264_v4l2m2m" \/ codec = "libx264" \/ codec = "libx265".
Proof.
  unfold codec_needs_pix_fmt, pix_fmt_codecs. cbn [existsb].
  rewrite !orb_true_iff, !String.eqb_eq. intuition discriminate.
Qed.

(** Claim C6: the command is the fixed run of arguments (overwrite flag,
    quiet logging, concat input reading the manifest, then filter, codec,
    crf, preset, target, minimum and maximum bitrate, buffer size and frame
    size), then the pixel format and the limited colour range exactly when
    the codec is one of the three known ones, then the output path, which
    comes last. *)
Theorem encoder_command_layout
    (config : Config) (image_list_file output_path : string) :
  let codec := vo_codec (video_output config) in
  build_ffmpeg_command config image_list_file output_path
  = (fixed_arguments config image_list_file
     ++ (if codec_needs_pix_fmt codec
         then ["-pix_fmt"; "yuv420p"; "-color_range"; "tv"] else [])
     ++ [output_path])%list
  /\ (codec_needs_pix_fmt codec = true
      <-> codec = "h264_v4l2m2m" \/ codec = "libx264" \/ codec = "libx265")
  /\ last (build_ffmpeg_command config image_list_file output_path) "" = output_path
  /\ nth_error (build_ffmpeg_command config image_list_file output_path) 10
     = Some image_list_file.
Proof.
  intros codec. unfold build_ffmpeg_command. fold codec.
  split; [| split; [| split]].
  - destruct (codec_needs_pix_fmt codec); reflexivity.
  - apply codec_needs_pix_fmt_iff.
  - destruct (codec_needs_pix_fmt codec); reflexivity.
  - destruct (codec_needs_pix_fmt codec); reflexivity.
Qed.

(** ** Sorting file names *)

Lemma ascii_compare_N (a b : ascii) :
  Ascii.compare a b = N.compare (N_of_ascii a) (N_of_ascii b).
Proof. reflexivity. Qed.

Lemma string_compare_trans_le (s1 s2 s3 : string) :
  String.compare s1 s2 <> Gt -> String.compare s2 s3 <> Gt ->
  String.compare s1 s3 <> Gt.
Proof.
  revert s2 s3.
  induction s1 as [| a s1 IH]; intros [| b s2] [| c s3]; cbn [String.compare];
    try congruence.
  rewrite !ascii_compare_N.
  destruct (N.compare_spec (N_of_ascii a) (N_of_ascii b)) as [Hab | Hab | Hab];
    destruct (N.compare_spec (N_of_ascii b) (N_of_ascii c)) as [Hbc | Hbc | Hbc];
    try congruence; intros H12 H23.
  - rewrite Hab, Hbc, N.compare_refl. now apply (IH s2 s3).
  - assert (Hac : (N_of_ascii a < N_of_ascii c)%N) by lia.
    apply N.compare_lt_iff in Hac. rewrite Hac. discriminate.
  - assert (Hac : (N_of_ascii a < N_of_ascii c)%N) by lia.
    apply N.compare_lt_iff in Hac. rewrite Hac. discriminate.
  - assert (Hac : (N_of_ascii a < N_of_ascii c)%N) by lia.
    apply N.compare_lt_iff in Hac. rewrite Hac. discriminate.
Qed.

Lemma string_le_trans (a b c : string) :
  string_le a b -> string_le b c -> string_le a c.
Proof.
  unfold string_le, String.leb. intros Hab Hbc.
  pose proof (string_compare_trans_le a b c) as H.
  destruct (String.compare a b), (String.compare b c), (String.compare a c);
    try reflexivity; try discriminate; exfalso; apply H; congruence.
Qed.

Lemma string_le_flip (a b : string) :
  String.leb a b = false -> string_le b a.
Proof.
  intros H. destruct (String.leb_total a b) as [Hab | Hba]; [congruence | exact Hba].
Qed.

Lemma insert_sorted_perm (x : string) (l : list string) :
  Permutation (x :: l) (insert_sorted x l).
Proof.
  induction l as [| y l IH]; cbn [insert_sorted]; [reflexivity |].
  destruct (String.leb x y); [reflexivity |].
  rewrite perm_swap. now apply perm_skip.
Qed.

Lemma sorted_perm (l : list string) : Permutation l (sorted l).
Proof.
  induction l as [| x l IH]; cbn [sorted]; [constructor |].
  rewrite <- insert_sorted_perm. now apply perm_skip.
Qed.

Lemma insert_sorted_ordered (x : string) (l : list string) :
  StronglySorted string_le l -> StronglySorted string_le (insert_sorted x l).
Proof.
  induction 1 as [| y l Hl IH Hy]; cbn [insert_sorted].
  - repeat constructor.
  - destruct (String.leb x y) eqn:Hxy.
    + constructor; [now constructor |].
      constructor; [exact Hxy |].
      eapply Forall_impl; [| exact Hy].
      intros z Hz. now apply (string_le_trans x y z).
    + constructor; [exact IH |].
      apply (Permutation_Forall (insert_sorted_perm x l)).
      constructor; [now apply string_le_flip | exact Hy].
Qed.

Lemma sorted_ordered (l : list string) : StronglySorted string_le (sorted l).
Proof.
  induction l as [| x l IH]; cbn [sorted]; [constructor |].
  now apply insert_sorted_ordered.
Qed.

Lemma filter_ordered (keep : string -> bool) (l : list string) :
  StronglySorted string_le l -> StronglySorted string_le (filter keep l).
Proof.
  induction 1 as [| x l Hl IH Hx]; cbn [filter]; [constructor |].
  destruct (keep x); [| exact IH].
  constructor; [exact IH |].
  rewrite Forall_forall in *. intros y Hy.
  apply Hx. now apply filter_In in Hy.
Qed.

(** ** Dates and times *)

Lemma digit_of_range (c : ascii) (d : Z) :
  PyStr.digit_of c = Some d -> 0 <= d <= 9.
Proof.
  unfold PyStr.digit_of.
  destruct (48 <=? Z.of_nat (nat_of_ascii c)) eqn:Hlo;
    destruct (Z.of_nat (nat_of_ascii c) <=? 57) eqn:Hhi;
    cbn [andb]; try discriminate.
  intros [= <-]. lia.
Qed.

Lemma parse_hour_range (s rest : string) (h : Z) :
  parse_hour s = Some (h, rest) -> 0 <= h <= 23.
Proof.
  unfold parse_hour.
  destruct s as [| a [| b r]]; [discriminate | |].
  - destruct (PyStr.digit_of a) as [x |] eqn:Ha; [| discriminate].
    cbn [option_map]. intros [= <- _]. apply digit_of_range in Ha. lia.
  - destruct (PyStr.digit_of a) as [x |] eqn:Ha; [| discriminate].
    apply digit_of_range in Ha.
    destruct (PyStr.digit_of b) as [y |] eqn:Hb.
    + apply digit_of_range in Hb.
      remember (10 * x + y) as v eqn:Hv.
      destruct (Z.eqb_spec x 2), (Z.leb_spec y 3), (Z.leb_spec x 1);
        cbn [andb orb]; intros [= <- _]; lia.
    + intros [= <- _]. lia.
Qed.

Lemma parse_minute_range (s rest : string) (m : Z) :
  parse_minute s = Some (m, rest) -> 0 <= m <= 59.
Proof.
  unfold parse_minute.
  destruct s as [| a [| b r]]; [discriminate | |].
  - destruct (PyStr.digit_of a) as [x |] eqn:Ha; [| discriminate].
    cbn [option_map]. intros [= <- _]. apply digit_of_range in Ha. lia.
  - destruct (PyStr.digit_of a) as [x |] eqn:Ha; [| discriminate].
    apply digit_of_range in Ha.
    destruct (PyStr.digit_of b) as [y |] eqn:Hb.
    + apply digit_of_range in Hb.
      remember (10 * x + y) as v eqn:Hv.
      destruct (Z.leb_spec x 5); intros [= <- _]; lia.
    + intros [= <- _]. lia.
Qed.

Lemma strptime_HM_range (s : string) (t : Z) :
  strptime_HM s = inr t -> 0 <= t < usec_per_day.
Proof.
  unfold strptime_HM.
  destruct (parse_hour s) as [[h rest] |] eqn:Hh; [| discriminate].
  apply parse_hour_range in Hh.
  destruct rest as [| c r]; [discriminate |].
  destruct (Ascii.eqb_spec c ":") as [-> | Hc].
  - destruct (parse_minute r) as [[m rest'] |] eqn:Hm; [| discriminate].
    apply parse_minute_range in Hm.
    destruct rest'; [| discriminate].
    intros [= <-]. unfold usec_per_day. lia.
  - intros H. exfalso.
    destruct c as [[] [] [] [] [] [] [] []]; try discriminate H.
    now apply Hc.
Qed.

Lemma next_morning (date t : Z) :
  0 <= t < usec_per_day ->
  date_in_range (date + 1) = true ->
  datetime_add_days (combine date t) 1 = inr (combine (date + 1) t).
Proof.
  intros Ht Hrange. unfold datetime_add_days, combine.
  replace (date * usec_per_day + t + 1 * usec_per_day)
    with ((date + 1) * usec_per_day + t) by ring.
  replace (((date + 1) * usec_per_day + t) / usec_per_day) with (date + 1).
  - now rewrite Hrange.
  - symmetry. rewrite Z.div_add_l by (unfold usec_per_day; lia).
    rewrite (Z.div_small t usec_per_day Ht). lia.
Qed.

(** ** Image selection *)

Lemma get_image_files_sorted_glob (w : World) (config : Config) (date : Z) :
  get_image_files w config date = sorted (glob w (image_pattern w config date)).
Proof. reflexivity. Qed.

Lemma filter_by_mtime_readable (w : World) (keep : Z -> bool)
    (mtime : string -> Z) (images : list string) :
  (forall img, In img images -> getmtime w img = inr (mtime img)) ->
  filter_by_mtime w keep images
  = inr (filter (fun img => keep (mtime img)) images).
Proof.
  induction images as [| img images IH]; intros Hread; [reflexivity |].
  cbn [filter_by_mtime filter].
  rewrite (Hread img (or_introl eq_refl)).
  rewrite IH by (intros other Hin; apply Hread; now right).
  now destruct (keep (mtime img)).
Qed.

Lemma filter_by_mtime_unreadable (w : World) (keep : Z -> bool)
    (images : list string) (img : string) (e : Exn) :
  In img images -> getmtime w img = inl e ->
  exists e' : Exn, filter_by_mtime w keep images = inl e'.
Proof.
  induction images as [| first images IH]; intros Hin Hbad; [contradiction |].
  cbn [filter_by_mtime].
  destruct (getmtime w first) as [e1 | m] eqn:Hfirst; [now exists e1 |].
  destruct Hin as [-> | Hin]; [congruence |].
  destruct (IH Hin Hbad) as [e' ->]. now exists e'.
Qed.

(** The selection does not read the state, and all it does to it is the one
    log line of the morning-to-morning branch. *)
Lemma select_images_run (w : World) (config : Config) (date : Z) (s s0 : State) :
  select_images w config date s
  = (fst (select_images w config date s0),
     if ii_morning_to_morning (image_input config)
     then record_event s (Logged Info "cyan" "Applying morning-to-morning logic")
     else s).
Proof.
  unfold select_images.
  destruct (ii_morning_to_morning (image_input config)); [| reflexivity].
  unfold bind, lift, log_with_color, emit, ret, raise, record_event.
  cbn [String.eqb Ascii.eqb Bool.eqb fst snd].
  destruct (strptime_HM (ii_morning_time (image_input config))) as [e | t];
    [reflexivity |].
  destruct (datetime_add_days (combine date t) 1) as [e | t']; [reflexivity |].
  destruct (filter_by_mtime w _ (get_image_files w config date)) as [e | today];
    [reflexivity |].
  destruct (date_add_days date 1) as [e | d']; [reflexivity |].
  destruct (filter_by_mtime w _ (get_image_files w config d')) as [e | tomorrow];
    reflexivity.
Qed.

Lemma select_images_readable (w : World) (config : Config) (date t : Z)
    (mtime : string -> Z) (st : State) :
  ii_morning_to_morning (image_input config) = true ->
  strptime_HM (ii_morning_time (image_input config)) = inr t ->
  date_in_range (date + 1) = true ->
  (forall img, In img (get_image_files w config date) ->
               getmtime w img = inr (mtime img)) ->
  (forall img, In img (get_image_files w config (date + 1)) ->
               getmtime w img = inr (mtime img)) ->
  fst (select_images w config date st)
  = inr (filter (fun img => combine date t <=? mtime img)
                (get_image_files w config date)
         ++ filter (fun img => mtime img <=? combine (date + 1) t)
                   (get_image_files w config (date + 1)))%list.
Proof.
  intros Hon Ht Hrange Htoday Htomorrow. unfold select_images. rewrite Hon.
  unfold bind, lift, log_with_color, emit, ret, raise.
  cbn [String.eqb Ascii.eqb Bool.eqb]. rewrite Ht.
  rewrite (next_morning date t (strptime_HM_range _ t Ht) Hrange).
  rewrite (filter_by_mtime_readable w _ mtime _ Htoday).
  unfold date_add_days. rewrite Hrange.
  rewrite (filter_by_mtime_readable w _ mtime _ Htomorrow).
  reflexivity.
Qed.

Lemma select_images_unreadable (w : World) (config : Config) (date t : Z)
    (img : string) (e : Exn) (st : State) :
  ii_morning_to_morning (image_input config) = true ->
  strptime_HM (ii_morning_time (image_input config)) = inr t ->
  date_in_range (date + 1) = true ->
  In img (get_image_files w config date ++ get_image_files w config (date + 1)) ->
  getmtime w img = inl e ->
  exists e' : Exn, fst (select_images w config date st) = inl e'.
Proof.
  intros Hon Ht Hrange Hin Hbad. unfold select_images. rewrite Hon.
  unfold bind, lift, log_with_color, emit, ret, raise.
  cbn [String.eqb Ascii.eqb Bool.eqb]. rewrite Ht.
  rewrite (next_morning date t (strptime_HM_range _ t Ht) Hrange).
  destruct (filter_by_mtime w (fun m => combine date t <=? m)
              (get_image_files w config date)) as [e1 | today] eqn:Htoday;
    [now exists e1 |].
  unfold date_add_days. rewrite Hrange.
  apply in_app_or in Hin as [Hin | Hin].
  - destruct (filter_by_mtime_unreadable w (fun m => combine date t <=? m)
                _ img e Hin Hbad) as [e' He']. congruence.
  - destruct (filter_by_mtime_unreadable w
                (fun m => m <=? combine (date + 1) t) _ img e Hin Hbad)
      as [e' He'].
    rewrite He'. now exists e'.
Qed.

(** Claim C3: without the morning-to-morning mode the selection is the
    name-sorted listing of the day's folder; with it, a readable morning
    time [t] and modification times [mtime] that can be read, it is the files
    of the day's folder modified at or after the day at [t], followed by the
    files of the next day's folder modified at or before the next day at
    [t], each part in name order.  A listed file whose modification time
    cannot be read makes the selection raise instead. *)
Theorem selection_by_mode (w : World) (config : Config) (date : Z) (st : State) :
  (forall d, StronglySorted string_le (get_image_files w config d)
             /\ Permutation (glob w (image_pattern w config d))
                            (get_image_files w config d))
  /\ (ii_morning_to_morning (image_input config) = false ->
      fst (select_images w config date st) = inr (get_image_files w config date))
  /\ (ii_morning_to_morning (image_input config) = true ->
      forall (t : Z) (mtime : string -> Z),
        strptime_HM (ii_morning_time (image_input config)) = inr t ->
        date_in_range (date + 1) = true ->
        (forall img, In img (get_image_files w config date) ->
                     getmtime w img = inr (mtime img)) ->
        (forall img, In img (get_image_files w config (date + 1)) ->
                     getmtime w img = inr (mtime img)) ->
        let today :=
          filter (fun img => combine date t <=? mtime img)
                 (get_image_files w config date) in
        let tomorrow :=
          filter (fun img => mtime img <=? combine (date + 1) t)
                 (get_image_files w config (date + 1)) in
        fst (select_images w config date st) = inr (today ++ tomorrow)%list
        /\ StronglySorted string_le today
        /\ StronglySorted string_le tomorrow)
  /\ (ii_morning_to_morning (image_input config) = true ->
      forall (t : Z) (img : string) (e : Exn),
        strptime_HM (ii_morning_time (image_input config)) = inr t ->
        date_in_range (date + 1) = true ->
        In img (get_image_files w config date
                ++ get_image_files w config (date + 1)) ->
        getmtime w img = inl e ->
        exists e' : Exn, fst (select_images w config date st) = inl e').
Proof.
  split; [| split; [| split]].
  - intros d. rewrite get_image_files_sorted_glob.
    split; [apply sorted_ordered | apply sorted_perm].
  - intros Hoff. unfold select_images. now rewrite Hoff.
  - intros Hon t mtime Ht Hrange Htoday Htomorrow today tomorrow.
    split; [| split].
    + now apply select_images_readable.
    + apply filter_ordered. rewrite get_image_files_sorted_glob.
      apply sorted_ordered.
    + apply filter_ordered. rewrite get_image_files_sorted_glob.
      apply sorted_ordered.
  - intros Hon t img e Ht Hrange Hin Hbad.
    now apply (select_images_unreadable w config date t img e).
Qed.

Lemma selection_by_mode_witness :
  fst (select_images Sample.world Sample.config_plain Sample.jan1 Sample.fresh)
  = inr [ "/var/www/html/images/2024/01/01/img_0500.jpg";
          "/var/www/html/images/2024/01/01/img_0630.jpg";
          "/var/www/html/images/2024/01/01/img_1200.jpg" ]
  /\ fst (select_images Sample.world Sample.config Sample.jan1 Sample.fresh)
     = inr [ "/var/www/html/images/2024/01/01/img_0630.jpg";
             "/var/www/html/images/2024/01/01/img_1200.jpg";
             "/var/www/html/images/2024/01/02/img_0500.jpg" ]
  /\ exists e' : Exn,
       fst (select_images Cases.world_dangling Sample.config Sample.jan1
              Sample.fresh) = inl e'.
Proof.
  pose proof (selection_by_mode Sample.world Sample.config_plain
                Sample.jan1 Sample.fresh) as [_ [Hplain _]].
  pose proof (selection_by_mode Sample.world Sample.config
                Sample.jan1 Sample.fresh) as [_ [_ [Hmorning _]]].
  pose proof (selection_by_mode Cases.world_dangling Sample.config
                Sample.jan1 Sample.fresh) as [_ [_ [_ Hdangling]]].
  split; [| split].
  - rewrite (Hplain eq_refl). reflexivity.
  - destruct (Hmorning eq_refl 21600000000 Sample.mtime_of eq_refl eq_refl
                (fun img _ => eq_refl) (fun img _ => eq_refl)) as [Hsel _].
    rewrite Hsel. reflexivity.
  - apply (Hdangling eq_refl 21600000000
             "/var/www/html/images/2024/01/02/img_0700.jpg"
             (PyExc "FileNotFoundError"
                "[Errno 2] No such file or directory: '/var/www/html/images/2024/01/02/img_0700.jpg'")
             eq_refl eq_refl).
    + cbn. tauto.
    + reflexivity.
Defined.

(** Claim C2: when the selection is empty the run logs the error and stops:
    beyond log lines nothing happens, so no manifest is written, no folder
    is made and the encoder is not started. *)
Theorem empty_selection_aborts
    (w : World) (config : Config) (args : Args) (date : Z) (st : State) :
  fst (select_images w config date st) = inr [] ->
  exists added : list Event,
    create_timelapse w config args date st
    = (inr tt, {| dirs := dirs st; events := (events st ++ added)%list |})
    /\ forallb is_log added = true
    /\ launches added = 0%nat
    /\ last added (Launched [])
       = Logged Error "red"
           ("No images found for the selected date: " ++ str_date w date).
Proof.
  intros Hempty.
  exists ((Logged Info "green" ("Creating timelapse for date: " ++ str_date w date)
           :: (if ii_morning_to_morning (image_input config)
               then [Logged Info "cyan" "Applying morning-to-morning logic"]
               else []))
          ++ [Logged Error "red"
                ("No images found for the selected date: " ++ str_date w date)])%list.
  split; [| split; [| split]].
  - unfold create_timelapse, try_except, create_timelapse_try.
    unfold bind at 1. unfold log_with_color at 1.
    cbn [String.eqb Ascii.eqb Bool.eqb]. unfold emit at 1.
    unfold bind at 1. rewrite (select_images_run w config date _ st), Hempty.
    unfold log_with_color, emit. cbn [String.eqb Ascii.eqb Bool.eqb].
    destruct (ii_morning_to_morning (image_input config));
      unfold record_event; cbn [dirs events]; now rewrite <- !app_assoc.
  - destruct (ii_morning_to_morning (image_input config)); reflexivity.
  - destruct (ii_morning_to_morning (image_input config)); reflexivity.
  - destruct (ii_morning_to_morning (image_input config)); reflexivity.
Qed.

Lemma empty_selection_aborts_witness :
  fst (select_images Sample.world Sample.config_plain Sample.jan3 Sample.fresh)
  = inr []
  /\ exists added : list Event,
       create_timelapse Sample.world Sample.config_plain Sample.no_limit
         Sample.jan3 Sample.fresh
       = (inr tt, {| dirs := []; events := added |})
       /\ forallb is_log added = true
       /\ launches added = 0%nat
       /\ last added (Launched [])
          = Logged Error "red"
              "No images found for the selected date: 2024-01-03".
Proof.
  split; [reflexivity |].
  exact (empty_selection_aborts Sample.world Sample.config_plain
           Sample.no_limit Sample.jan3 Sample.fresh eq_refl).
Defined.

(** ** Effects of the steps of a run *)

Lemma launches_app (x y : list Event) :
  launches (x ++ y) = (launches x + launches y)%nat.
Proof.
  unfold launches. now rewrite filter_app, length_app.
Qed.

Lemma extends_weaken {A : Type} (P Q : list Event -> Prop) (c : M A) :
  (forall x, P x -> Q x) -> extends_by P c -> extends_by Q c.
Proof.
  intros HPQ Hc st. destruct (Hc st) as [added [Hev HP]].
  exists added. split; [exact Hev | now apply HPQ].
Qed.

Lemma extends_ret {A : Type} (P : list Event -> Prop) (a : A) :
  P [] -> extends_by P (ret a).
Proof.
  intros HP st. exists []. split; [| exact HP].
  cbn. now rewrite app_nil_r.
Qed.

Lemma extends_raise {A : Type} (P : list Event -> Prop) (e : Exn) :
  P [] -> extends_by P (@raise A e).
Proof.
  intros HP st. exists []. split; [| exact HP].
  cbn. now rewrite app_nil_r.
Qed.

Lemma extends_lift {A : Type} (P : list Event -> Prop) (r : Exn + A) :
  P [] -> extends_by P (lift r).
Proof.
  intros HP. destruct r; [now apply extends_raise | now apply extends_ret].
Qed.

Lemma extends_emit (P : list Event -> Prop) (ev : Event) :
  P [ev] -> extends_by P (emit ev).
Proof.
  intros HP st. exists [ev]. split; [reflexivity | exact HP].
Qed.

Lemma extends_bind {A B : Type} (P Q R : list Event -> Prop)
    (c : M A) (k : A -> M B) :
  (forall x, P x -> R x) ->
  (forall x y, P x -> Q y -> R (x ++ y)%list) ->
  extends_by P c -> (forall a, extends_by Q (k a)) ->
  extends_by R (bind c k).
Proof.
  intros HPR HPQR Hc Hk st. unfold bind.
  destruct (Hc st) as [x [Hx HPx]].
  destruct (c st) as [[e | a] st1]; cbn [snd] in *.
  - exists x. split; [exact Hx | now apply HPR].
  - destruct (Hk a st1) as [y [Hy HQy]].
    exists (x ++ y)%list. split; [| now apply HPQR].
    now rewrite Hy, Hx, app_assoc.
Qed.

Lemma extends_try_except {A : Type} (P Q R : list Event -> Prop)
    (c : M A) (h : Exn -> M A) :
  (forall x, P x -> R x) ->
  (forall x y, P x -> Q y -> R (x ++ y)%list) ->
  extends_by P c -> (forall e, extends_by Q (h e)) ->
  extends_by R (try_except c h).
Proof.
  intros HPR HPQR Hc Hh st. unfold try_except.
  destruct (Hc st) as [x [Hx HPx]].
  destruct (c st) as [[e | a] st1]; cbn [snd] in *.
  - destruct (Hh e st1) as [y [Hy HQy]].
    exists (x ++ y)%list. split; [| now apply HPQR].
    now rewrite Hy, Hx, app_assoc.
  - exists x. split; [exact Hx | now apply HPR].
Qed.

(** A step that does not start the encoder, followed by one that starts it
    at most [k] times. *)
Lemma quiet_then {A B : Type} (k : nat) (c : M A) (f : A -> M B) :
  extends_by (at_most_launches 0) c ->
  (forall a, extends_by (at_most_launches k) (f a)) ->
  extends_by (at_most_launches k) (bind c f).
Proof.
  apply extends_bind; unfold at_most_launches.
  - intros x Hx. lia.
  - intros x y Hx Hy. rewrite launches_app. lia.
Qed.

Lemma then_quiet {A B : Type} (k : nat) (c : M A) (f : A -> M B) :
  extends_by (at_most_launches k) c ->
  (forall a, extends_by (at_most_launches 0) (f a)) ->
  extends_by (at_most_launches k) (bind c f).
Proof.
  apply extends_bind; unfold at_most_launches.
  - intros x Hx. lia.
  - intros x y Hx Hy. rewrite launches_app. lia.
Qed.

Ltac count_launches := unfold at_most_launches; cbn; lia.

Lemma quiet_any {A : Type} (k : nat) (c : M A) :
  extends_by (at_most_launches 0) c -> extends_by (at_most_launches k) c.
Proof.
  apply extends_weaken. unfold at_most_launches. intros x Hx. lia.
Qed.

Lemma log_quiet (message level color : string) :
  extends_by (at_most_launches 0) (log_with_color message level color).
Proof.
  unfold log_with_color.
  destruct (String.eqb level "info"); [apply extends_emit; count_launches |].
  destruct (String.eqb level "error"); [apply extends_emit; count_launches |].
  destruct (String.eqb level "warning"); [apply extends_emit; count_launches |].
  apply extends_ret; count_launches.
Qed.

Lemma ret_quiet {A : Type} (a : A) : extends_by (at_most_launches 0) (ret a).
Proof. apply extends_ret; count_launches. Qed.

Lemma lift_quiet {A : Type} (r : Exn + A) :
  extends_by (at_most_launches 0) (lift r).
Proof. apply extends_lift; count_launches. Qed.

Lemma raise_quiet {A : Type} (e : Exn) :
  extends_by (at_most_launches 0) (@raise A e).
Proof. apply extends_raise; count_launches. Qed.

Create HintDb quiet.
#[local] Hint Resolve log_quiet ret_quiet lift_quiet raise_quiet : quiet.

Ltac quiet_steps :=
  repeat first [ solve [auto with quiet] | apply quiet_then; [| intros ?] ].

Lemma makedirs_quiet (w : World) (path : string) :
  extends_by (at_most_launches 0) (makedirs_exist_ok w path).
Proof.
  intros st. unfold makedirs_exist_ok.
  destruct (existsb (String.eqb path) (dirs st)).
  - exists []. cbn [snd]. rewrite app_nil_r. split; [reflexivity | count_launches].
  - destruct (makedirs_fail w path).
    + exists []. cbn [snd]. rewrite app_nil_r.
      split; [reflexivity | count_launches].
    + exists [MadeDirs path]. split; [reflexivity | count_launches].
Qed.

Lemma create_ffmpeg_file_list_quiet (w : World) (images : list string) :
  extends_by (at_most_launches 0) (create_ffmpeg_file_list w images).
Proof.
  unfold create_ffmpeg_file_list.
  destruct (open_w w "ffmpeg_images.txt"); [apply raise_quiet |].
  apply quiet_then; [apply extends_emit; count_launches | intros _; apply ret_quiet].
Qed.

Lemma save_metadata_to_json_quiet (w : World) (config : Config)
    (output_path : string) (doc : list (string * JValue)) :
  extends_by (at_most_launches 0) (save_metadata_to_json w config output_path doc).
Proof.
  unfold save_metadata_to_json.
  destruct (open_w w _); [apply raise_quiet |].
  apply quiet_then; [apply extends_emit; count_launches | intros _; apply log_quiet].
Qed.

Lemma build_output_path_quiet (w : World) (config : Config) (date : Z) :
  extends_by (at_most_launches 0) (build_output_path w config date).
Proof.
  unfold build_output_path.
  apply quiet_then; [apply makedirs_quiet | intros _; apply ret_quiet].
Qed.

Lemma select_images_quiet (w : World) (config : Config) (date : Z) :
  extends_by (at_most_launches 0) (select_images w config date).
Proof.
  unfold select_images.
  destruct (ii_morning_to_morning (image_input config)); quiet_steps.
Qed.

Lemma limit_images_quiet (args : Args) (images : list string) :
  extends_by (at_most_launches 0) (limit_images args images).
Proof.
  unfold limit_images. destruct (test_amount_set args); quiet_steps.
Qed.

Lemma run_popen_once (w : World) (argv : list string) :
  extends_by (at_most_launches 1) (run_popen w argv).
Proof.
  unfold run_popen. destruct (popen w argv) as [e | out].
  - apply quiet_any, raise_quiet.
  - apply then_quiet; [apply extends_emit; count_launches | intros _; apply ret_quiet].
Qed.

Lemma encode_and_record_once (w : World) (config : Config) (args : Args)
    (date start_time : Z) (images : list string) :
  extends_by (at_most_launches 1)
             (encode_and_record w config args date start_time images).
Proof.
  unfold encode_and_record.
  apply quiet_then; [apply create_ffmpeg_file_list_quiet | intros image_list_file].
  apply quiet_then; [apply build_output_path_quiet | intros output_path].
  apply quiet_then; [apply log_quiet | intros _].
  apply then_quiet; [apply run_popen_once | intros out].
  quiet_steps.
  destruct (md_save_to_file (metadata config));
    [apply save_metadata_to_json_quiet | apply ret_quiet].
Qed.

Lemma create_timelapse_try_once (w : World) (config : Config) (args : Args)
    (date : Z) :
  extends_by (at_most_launches 1) (create_timelapse_try w config args date).
Proof.
  unfold create_timelapse_try.
  apply quiet_then; [apply log_quiet | intros _].
  apply quiet_then; [apply select_images_quiet | intros images].
  destruct images as [| image images]; [apply quiet_any, log_quiet |].
  apply quiet_then; [apply limit_images_quiet | intros used].
  apply encode_and_record_once.
Qed.

(** ** The orchestrator *)

(** Claim C7: whatever the outside world answers, [create_timelapse]
    returns normally.  An exception raised anywhere in the body of its [try]
    statement ends the run with one error-level log line that carries the
    text of the exception; nothing is raised again, and the encoder is
    started at most once in a run. *)
Theorem orchestrator_is_error_boundary
    (w : World) (config : Config) (args : Args) (date : Z) (st : State) :
  exists (st' : State) (added : list Event),
    create_timelapse w config args date st = (inr tt, st')
    /\ events st' = (events st ++ added)%list
    /\ (launches added <= 1)%nat
    /\ (forall (e : Exn) (st1 : State),
          create_timelapse_try w config args date st = (inl e, st1) ->
          st' = record_event st1
                  (Logged Error "red" ("Error creating timelapse: " ++ exn_text e)))
    /\ (forall st1 : State,
          create_timelapse_try w config args date st = (inr tt, st1) -> st' = st1).
Proof.
  destruct (create_timelapse_try_once w config args date st) as [x [Hx Hlaunch]].
  unfold at_most_launches in Hlaunch.
  unfold create_timelapse, try_except.
  destruct (create_timelapse_try w config args date st) as [[e | []] st1] eqn:Htry;
    cbn [snd] in Hx.
  - exists (record_event st1
              (Logged Error "red" ("Error creating timelapse: " ++ exn_text e))).
    exists (x ++ [Logged Error "red" ("Error creating timelapse: " ++ exn_text e)])%list.
    split; [reflexivity |]. split; [| split; [| split]].
    + cbn [record_event events]. now rewrite Hx, app_assoc.
    + rewrite launches_app. cbn. lia.
    + now intros e' st2 [= <- <-].
    + discriminate.
  - exists st1, x. split; [reflexivity |]. split; [exact Hx |].
    split; [exact Hlaunch |]. split; [discriminate |].
    now intros st2 [= <-].
Qed.

(** With no encoder installed the launch raises, and the run ends with the
    error line. *)
Example missing_encoder_is_logged :
  fst (create_timelapse Sample.world_no_ffmpeg Sample.config_plain
         Sample.no_limit Sample.jan1 Sample.fresh) = inr tt
  /\ last (events (snd (create_timelapse Sample.world_no_ffmpeg
                          Sample.config_plain Sample.no_limit
                          Sample.jan1 Sample.fresh)))
          (Launched [])
     = Logged Error "red"
         "Error creating timelapse: [Errno 2] No such file or directory: 'ffmpeg'"
  /\ launches (events (snd (create_timelapse Sample.world_no_ffmpeg
                              Sample.config_plain Sample.no_limit
                              Sample.jan1 Sample.fresh))) = 0%nat.
Proof.
  repeat split; reflexivity.
Qed.

Lemma slice_to_positive (k : Z) (l : list string) :
  0 <= k -> slice_to k l = firstn (Z.to_nat k) l.
Proof.
  intros Hk. unfold slice_to.
  destruct (Z.leb_spec 0 k); [reflexivity | lia].
Qed.

Lemma create_ffmpeg_file_list_writes (w : World) (images : list string)
    (st : State) :
  open_w w "ffmpeg_images.txt" = None ->
  create_ffmpeg_file_list w images st
  = (inr "ffmpeg_images.txt",
     record_event st
       (WroteText "ffmpeg_images.txt"
          (String.concat "" (map manifest_line images)))).
Proof.
  intros Hopen. unfold create_ffmpeg_file_list. now rewrite Hopen.
Qed.

(** Once the manifest can be opened, the first thing the encoding part of a
    run does is to write one line per image. *)
Lemma encode_and_record_manifest (w : World) (config : Config) (args : Args)
    (date start_time : Z) (images : list string) (st : State) :
  open_w w "ffmpeg_images.txt" = None ->
  exists after : list Event,
    events (snd (encode_and_record w config args date start_time images st))
    = (events st
       ++ WroteText "ffmpeg_images.txt"
            (String.concat "" (map manifest_line images)) :: after)%list.
Proof.
  intros Hopen.
  pose proof (encode_and_record_once w config args date start_time images) as Hall.
  unfold encode_and_record in *.
  unfold bind at 1. rewrite (create_ffmpeg_file_list_writes w images st Hopen).
  match goal with
  | |- context [snd (?k ?s)] =>
      assert (Hk : extends_by (at_most_launches 1) k)
  end.
  { apply quiet_then; [apply build_output_path_quiet | intros output_path].
    apply quiet_then; [apply log_quiet | intros _].
    apply then_quiet; [apply run_popen_once | intros out].
    quiet_steps.
    destruct (md_save_to_file (metadata config));
      [apply save_metadata_to_json_quiet | apply ret_quiet]. }
  match goal with
  | |- context [snd (?k ?s)] => destruct (Hk s) as [after [Hafter _]]
  end.
  exists after. rewrite Hafter. cbn [record_event events].
  now rewrite <- app_assoc.
Qed.

(** Claim C4: with a test limit [k], [0 < k < length], the run goes on with
    exactly the first [k] selected images, in the order of the selection:
    they are what the manifest lists, what the progress bar counts and what
    the sidecar numbers. *)
Theorem test_limit_takes_first_k
    (w : World) (config : Config) (args : Args) (date : Z) (st : State)
    (images : list string) (k : Z) :
  fst (select_images w config date st) = inr images ->
  test_amount args = Some k ->
  0 < k < Z.of_nat (List.length images) ->
  let used := firstn (Z.to_nat k) images in
  Z.of_nat (List.length used) = k
  /\ (forall s, fst (limit_images args images s) = inr used)
  /\ (exists st1 : State,
        create_timelapse_try w config args date st
        = encode_and_record w config args date (now_start w) used st1)
  /\ (open_w w "ffmpeg_images.txt" = None ->
      exists logs after : list Event,
        events (snd (create_timelapse_try w config args date st))
        = (events st ++ logs
           ++ WroteText "ffmpeg_images.txt"
                (String.concat "" (map manifest_line used)) :: after)%list
        /\ forallb is_log logs = true).
Proof.
  intros Hsel Htest Hk used.
  assert (Hset : test_amount_set args = Some k).
  { unfold test_amount_set. rewrite Htest.
    destruct (Z.eqb_spec k 0); [lia | reflexivity]. }
  assert (Hlimit : forall s,
             limit_images args images s
             = (inr used,
                record_event s
                  (Logged Info "magenta"
                     ("Using only the first " ++ PyStr.str_of_Z k
                      ++ " images for testing")))).
  { intros s. unfold limit_images. rewrite Hset.
    unfold bind, log_with_color, emit, ret, record_event.
    cbn [String.eqb Ascii.eqb Bool.eqb].
    now rewrite slice_to_positive by lia. }
  assert (Hrun : exists (st1 : State) (logs : list Event),
             create_timelapse_try w config args date st
             = encode_and_record w config args date (now_start w) used st1
             /\ events st1 = (events st ++ logs)%list
             /\ forallb is_log logs = true).
  { unfold create_timelapse_try.
    unfold bind at 1. unfold log_with_color at 1.
    cbn [String.eqb Ascii.eqb Bool.eqb]. unfold emit at 1.
    unfold bind at 1. rewrite (select_images_run w config date _ st), Hsel.
    destruct images as [| image images']; [cbn in Hk; lia |].
    unfold bind at 1. rewrite Hlimit.
    destruct (ii_morning_to_morning (image_input config));
      eexists; eexists; (split; [reflexivity |]);
      cbn [record_event events]; rewrite <- !app_assoc;
      (split; [reflexivity | reflexivity]). }
  split; [| split; [| split]].
  - unfold used. rewrite length_firstn. lia.
  - intros s. now rewrite Hlimit.
  - destruct Hrun as [st1 [logs [Hst1 _]]]. now exists st1.
  - intros Hopen. destruct Hrun as [st1 [logs [Hst1 [Hev Hlogs]]]].
    destruct (encode_and_record_manifest w config args date (now_start w)
                used st1 Hopen) as [after Hafter].
    exists logs, after. split; [| exact Hlogs].
    now rewrite Hst1, Hafter, Hev, <- app_assoc.
Qed.

Lemma test_limit_takes_first_k_witness :
  fst (select_images Sample.world Sample.config_plain Sample.jan1 Sample.fresh)
  = inr [ "/var/www/html/images/2024/01/01/img_0500.jpg";
          "/var/www/html/images/2024/01/01/img_0630.jpg";
          "/var/www/html/images/2024/01/01/img_1200.jpg" ]
  /\ test_amount (Sample.limit 2) = Some 2
  /\ 0 < 2 < 3
  /\ fst (limit_images (Sample.limit 2)
            [ "/var/www/html/images/2024/01/01/img_0500.jpg";
              "/var/www/html/images/2024/01/01/img_0630.jpg";
              "/var/www/html/images/2024/01/01/img_1200.jpg" ] Sample.fresh)
     = inr [ "/var/www/html/images/2024/01/01/img_0500.jpg";
             "/var/www/html/images/2024/01/01/img_0630.jpg" ].
Proof.
  split; [reflexivity |]. split; [reflexivity |].
  split; [split; reflexivity |].
  assert (Hk : 0 < 2 < Z.of_nat (List.length
             [ "/var/www/html/images/2024/01/01/img_0500.jpg";
               "/var/www/html/images/2024/01/01/img_0630.jpg";
               "/var/www/html/images/2024/01/01/img_1200.jpg" ]))
    by (split; reflexivity).
  exact (proj1 (proj2
           (test_limit_takes_first_k Sample.world Sample.config_plain
              (Sample.limit 2) Sample.jan1 Sample.fresh _ 2
              eq_refl eq_refl Hk)) Sample.fresh).
Defined.

(** ** Output path *)

Lemma build_output_path_existing (w : World) (config : Config) (date : Z)
    (st : State) :
  existsb (String.eqb (output_folder_of w config date)) (dirs st) = true ->
  build_output_path w config date st = (inr (output_path_of w config date), st).
Proof.
  intros Hdir. unfold build_output_path, bind, makedirs_exist_ok.
  fold (output_folder_of w config date). now rewrite Hdir.
Qed.

(** Claim C9: the path built depends on the date and the settings only, a
    second construction after a first one returns the same path without an
    error and changes nothing, and the construction succeeds without any
    effect whenever the output folder is already there. *)
Theorem output_path_deterministic_idempotent
    (w : World) (config : Config) (date : Z) (st st1 : State) (p : string) :
  build_output_path w config date st = (inr p, st1) ->
  p = output_path_of w config date
  /\ build_output_path w config date st1 = (inr p, st1)
  /\ (forall st2 : State,
        existsb (String.eqb (output_folder_of w config date)) (dirs st2) = true ->
        build_output_path w config date st2 = (inr p, st2)).
Proof.
  intros Hfirst.
  assert (Hp : p = output_path_of w config date
               /\ existsb (String.eqb (output_folder_of w config date)) (dirs st1)
                  = true).
  { revert Hfirst. unfold build_output_path, bind, makedirs_exist_ok.
    fold (output_folder_of w config date).
    destruct (existsb (String.eqb (output_folder_of w config date)) (dirs st))
      eqn:Hdir.
    - intros [= <- <-]. now split.
    - destruct (makedirs_fail w (output_folder_of w config date));
        [discriminate |].
      intros [= <- <-]. split; [reflexivity |].
      cbn [dirs existsb]. now rewrite String.eqb_refl. }
  destruct Hp as [-> Hdir1].
  split; [reflexivity |]. split.
  - now apply build_output_path_existing.
  - intros st2 Hdir2. now apply build_output_path_existing.
Qed.

Lemma output_path_deterministic_idempotent_witness :
  build_output_path Sample.world Sample.config_plain Sample.jan1 Sample.fresh
  = (inr "/var/www/html/videos/2024/01/timelapse_2024_01_01.mp4",
     {| dirs := ["/var/www/html/videos/2024/01"];
        events := [MadeDirs "/var/www/html/videos/2024/01"] |})
  /\ build_output_path Sample.world Sample.config_plain Sample.jan1
       {| dirs := ["/var/www/html/videos/2024/01"];
          events := [MadeDirs "/var/www/html/videos/2024/01"] |}
     = (inr "/var/www/html/videos/2024/01/timelapse_2024_01_01.mp4",
        {| dirs := ["/var/www/html/videos/2024/01"];
           events := [MadeDirs "/var/www/html/videos/2024/01"] |}).
Proof.
  split; [reflexivity |].
  exact (proj1 (proj2
           (output_path_deterministic_idempotent Sample.world
              Sample.config_plain Sample.jan1 Sample.fresh _ _ eq_refl))).
Defined.

(** ** Test amount zero *)


(** ** Sidecar document *)

(** What the sidecar says about the run, whatever its path: the number of
    images handed to the encoder, the size over [1024 * 1024] with two
    decimals, and ["full"] without a test amount. *)
Lemma sidecar_fields (w : World) (config : Config) (args : Args) (date : Z)
    (output_path : string) (file_size t0 t1 : Z) (images : list string) :
  let doc :=
    collect_metadata w config args date output_path file_size t0 t1 images in
  field "number_of_images" doc = Some (JInt (Z.of_nat (List.length images)))
  /\ field "file_size_MB" doc = Some (JStr (format_2f file_size (1024 * 1024)))
  /\ (test_amount args = None -> field "test_amount" doc = Some (JStr "full"))
  /\ format_2f (10 * 1024 * 1024) (1024 * 1024) = "10.00".
Proof.
  intros doc. split; [reflexivity |]. split; [reflexivity |].
  split; [| reflexivity].
  intros Hnone. unfold doc, collect_metadata, test_amount_set.
  now rewrite Hnone.
Qed.

(** The sidecar is written where [str.replace] leads: every occurrence of the
    extension text in the output path is rewritten. *)
Lemma save_metadata_to_json_path (w : World) (config : Config)
    (output_path : string) (doc : list (string * JValue)) (st : State) :
  let json_filename :=
    PyStr.replace (fn_extension (filename config)) ".json" output_path in
  open_w w json_filename = None ->
  save_metadata_to_json w config output_path doc st
  = (inr tt,
     record_event (record_event st (WroteJson json_filename doc))
       (Logged Info "green" ("Metadata saved to " ++ json_filename))).
Proof.
  intros json_filename Hopen. unfold save_metadata_to_json.
  fold json_filename. now rewrite Hopen.
Qed.

(** Claim C8 on settings whose prefix contains the extension text: the video
    goes to [cam.mp4_2024_01_01.mp4], the sidecar to
    [cam.json_2024_01_01.json] and not to [cam.mp4_2024_01_01.json]. *)
Theorem sidecar_path_inner_extension :
  let run :=
    create_timelapse Sample.world Sample.config_dotted Sample.no_limit
      Sample.jan1 Sample.fresh in
  fst run = inr tt
  /\ output_path_of Sample.world Sample.config_dotted Sample.jan1
     = "/var/www/html/videos/2024/01/cam.mp4_2024_01_01.mp4"
  /\ existsb (wrote_json_at "/var/www/html/videos/2024/01/cam.json_2024_01_01.json")
             (events (snd run)) = true
  /\ existsb (wrote_json_at "/var/www/html/videos/2024/01/cam.mp4_2024_01_01.json")
             (events (snd run)) = false.
Proof.
  cbv zeta. repeat split; vm_compute; reflexivity.
Qed.

(** * Further properties of the code *)

(** ** Sanitizing and the qualifier *)

Lemma sanitize_char_safe (c : ascii) : unsafe_char (sanitize_char c) = false.
Proof.
  unfold sanitize_char, unsafe_char.
  destruct (Ascii.eqb c " ") eqn:Hsp; [reflexivity |].
  destruct (Ascii.eqb c ":") eqn:Hco; [reflexivity |].
  destruct (Ascii.eqb c "/") eqn:Hsl; [reflexivity |].
  cbn [orb]. now rewrite Hsp, Hco, Hsl.
Qed.

Lemma sanitize_char_fixed (c : ascii) :
  unsafe_char c = false -> sanitize_char c = c.
Proof.
  unfold sanitize_char, unsafe_char. now intros ->.
Qed.

Lemma string_forallb_app (p : ascii -> bool) (a b : string) :
  string_forallb p (a ++ b) = string_forallb p a && string_forallb p b.
Proof.
  induction a as [| c a IH]; [reflexivity |].
  cbn [append string_forallb]. now rewrite IH, andb_assoc.
Qed.

Lemma map_sanitize_safe (s : string) :
  filename_safe (map_string sanitize_char s) = true.
Proof.
  unfold filename_safe.
  induction s as [| c s IH]; [reflexivity |].
  cbn [map_string string_forallb]. now rewrite sanitize_char_safe, IH.
Qed.

Lemma map_sanitize_fixed (s : string) :
  filename_safe s = true -> map_string sanitize_char s = s.
Proof.
  unfold filename_safe.
  induction s as [| c s IH]; [reflexivity |].
  cbn [map_string string_forallb]. intros H.
  apply andb_true_iff in H as [Hc Hs].
  apply negb_true_iff in Hc.
  now rewrite (sanitize_char_fixed c Hc), (IH Hs).
Qed.

Lemma map_string_same_length (f : ascii -> ascii) (s : string) :
  String.length (map_string f s) = String.length s.
Proof.
  induction s as [| c s IH]; [reflexivity |].
  cbn [map_string String.length]. now rewrite IH.
Qed.

(** The sanitized value holds no space, colon or slash, is as long as the
    value, is left alone by a second sanitizing, and a value without these
    characters comes back unchanged. *)
Theorem sanitize_for_filename_safe (value : string) :
  filename_safe (sanitize_for_filename value) = true
  /\ String.length (sanitize_for_filename value) = String.length value
  /\ sanitize_for_filename (sanitize_for_filename value)
     = sanitize_for_filename value
  /\ (filename_safe value = true -> sanitize_for_filename value = value).
Proof.
  rewrite !sanitize_for_filename_chars.
  split; [apply map_sanitize_safe |].
  split; [apply map_string_same_length |].
  split.
  - apply map_sanitize_fixed, map_sanitize_safe.
  - apply map_sanitize_fixed.
Qed.

Lemma qualifier_parts (config : Config) (base_filename : string) :
  exists qualifier : string,
    append_metadata_to_filename config base_filename
    = base_filename ++ qualifier
    /\ filename_safe qualifier = true.
Proof.
  unfold append_metadata_to_filename, metadata_parts.
  destruct (fn_append_metadata (filename config)).
  - eexists. split; [reflexivity |].
    unfold PyStr.join. cbn [String.concat].
    rewrite !sanitize_for_filename_chars.
    unfold filename_safe. rewrite !string_forallb_app.
    repeat match goal with
           | |- context [string_forallb (fun c => negb (unsafe_char c))
                           (map_string sanitize_char ?v)] =>
               change (string_forallb (fun c => negb (unsafe_char c))
                         (map_string sanitize_char v))
                 with (filename_safe (map_string sanitize_char v));
               rewrite (map_sanitize_safe v)
           end.
    reflexivity.
  - exists "". split; [| reflexivity].
    induction base_filename as [| c s IH]; [reflexivity |].
    cbn [append]. now rewrite <- IH.
Qed.

(** Whatever the settings hold, [append_metadata_to_filename] keeps the base
    name as it is and appends text without a space, colon or slash: the
    qualifier cannot move the file to another folder.  With the flag off
    nothing is appended. *)
Theorem qualifier_stays_in_folder (config : Config) (base_filename : string) :
  exists qualifier : string,
    append_metadata_to_filename config base_filename
    = base_filename ++ qualifier
    /\ filename_safe qualifier = true
    /\ (fn_append_metadata (filename config) = false -> qualifier = "").
Proof.
  unfold append_metadata_to_filename, metadata_parts.
  destruct (fn_append_metadata (filename config)).
  - eexists. split; [reflexivity |]. split; [| discriminate].
    unfold PyStr.join. cbn [String.concat].
    rewrite !sanitize_for_filename_chars.
    unfold filename_safe. rewrite !string_forallb_app.
    fold (filename_safe (map_string sanitize_char
                           (vo_video_filter (video_output config)))).
    fold (filename_safe (map_string sanitize_char
                           (vo_codec (video_output config)))).
    fold (filename_safe (map_string sanitize_char
                           (PyStr.str_of_Z (vo_crf (video_output config))))).
    fold (filename_safe (map_string sanitize_char
                           (vo_preset (video_output config)))).
    fold (filename_safe (map_string sanitize_char
                           (vo_max_bitrate (video_output config)))).
    fold (filename_safe (map_string sanitize_char
                           (vo_video_size (video_output config)))).
    rewrite !map_sanitize_safe. reflexivity.
  - exists "". split; [| split; reflexivity].
    induction base_filename as [| c s IH]; [reflexivity |].
    cbn [append]. now rewrite <- IH.
Qed.

(** ** Directory listings *)

Lemma sorted_lists_equal (l1 l2 : list string) :
  StronglySorted string_le l1 -> StronglySorted string_le l2 ->
  Permutation l1 l2 -> l1 = l2.
Proof.
  intros H1. revert l2.
  induction H1 as [| x l1 Hl1 IH Hx]; intros l2 H2 Hperm.
  - now apply Permutation_nil in Hperm.
  - destruct H2 as [| y l2 Hl2 Hy].
    + symmetry in Hperm. now apply Permutation_nil in Hperm.
    + assert (Hxy : x = y).
      { rewrite Forall_forall in Hx, Hy.
        assert (Hin_y : In y (x :: l1))
          by (apply (Permutation_in y (Permutation_sym Hperm)); now left).
        assert (Hin_x : In x (y :: l2))
          by (apply (Permutation_in x Hperm); now left).
        destruct Hin_y as [Heq | Hin_y]; [exact Heq |].
        destruct Hin_x as [Heq | Hin_x]; [now symmetry |].
        apply String.leb_antisym; [now apply Hx | now apply Hy]. }
      subst y. f_equal. apply IH; [exact Hl2 |].
      now apply Permutation_cons_inv in Hperm.
Qed.

Lemma sorted_of_permutation (l1 l2 : list string) :
  Permutation l1 l2 -> sorted l1 = sorted l2.
Proof.
  intros Hperm. apply sorted_lists_equal; try apply sorted_ordered.
  rewrite <- (sorted_perm l1), <- (sorted_perm l2). exact Hperm.
Qed.

(** The list [get_image_files] returns does not depend on the order in which
    the directory listing comes back: two listings with the same entries give
    the same list, with as many entries as the listing has. *)
Theorem listing_order_is_irrelevant
    (w w' : World) (config : Config) (date : Z) :
  strftime_date w date (ii_folder_structure (image_input config))
  = strftime_date w' date (ii_folder_structure (image_input config)) ->
  (forall pattern, Permutation (glob w pattern) (glob w' pattern)) ->
  get_image_files w config date = get_image_files w' config date
  /\ List.length (get_image_files w config date)
     = List.length (glob w (image_pattern w config date)).
Proof.
  intros Hfmt Hglob. split.
  - rewrite !get_image_files_sorted_glob. unfold image_pattern.
    rewrite Hfmt. apply sorted_of_permutation, Hglob.
  - rewrite get_image_files_sorted_glob.
    symmetry. apply Permutation_length, sorted_perm.
Qed.

Lemma listing_order_is_irrelevant_witness :
  get_image_files Sample.world Sample.config_plain Sample.jan1
  = get_image_files Cases.world_reversed Sample.config_plain Sample.jan1.
Proof.
  refine (proj1 (listing_order_is_irrelevant Sample.world Cases.world_reversed
                   Sample.config_plain Sample.jan1 eq_refl _)).
  intros pattern. apply Permutation_rev.
Defined.

Lemma ordered_split (k : nat) (l : list string) :
  StronglySorted string_le l ->
  forall a b, In a (firstn k l) -> In b (skipn k l) -> string_le a b.
Proof.
  intros Hl. revert k.
  induction Hl as [| x l Hl IH Hx]; intros k a b Ha Hb.
  - destruct k; contradiction.
  - destruct k as [| k]; [contradiction |].
    cbn [firstn skipn] in Ha, Hb. destruct Ha as [<- | Ha].
    + rewrite Forall_forall in Hx. apply Hx.
      rewrite <- (firstn_skipn k l). apply in_or_app. now right.
    + now apply (IH k).
Qed.

(** Without the morning-to-morning mode a positive test amount [k] keeps the
    [k] smallest file names of the day: every image kept is at most every
    image left out. *)
Theorem test_limit_keeps_smallest_names
    (w : World) (config : Config) (args : Args) (date : Z) (st : State) (k : Z) :
  ii_morning_to_morning (image_input config) = false ->
  test_amount args = Some k ->
  0 < k ->
  let images := get_image_files w config date in
  let used := firstn (Z.to_nat k) images in
  fst (select_images w config date st) = inr images
  /\ fst (limit_images args images st) = inr used
  /\ (forall a b, In a used -> In b (skipn (Z.to_nat k) images) -> string_le a b).
Proof.
  intros Hoff Htest Hk images used. split; [| split].
  - unfold select_images. now rewrite Hoff.
  - unfold limit_images, test_amount_set. rewrite Htest.
    destruct (Z.eqb_spec k 0); [lia |].
    unfold bind, log_with_color, emit, ret.
    cbn [String.eqb Ascii.eqb Bool.eqb fst].
    now rewrite slice_to_positive by lia.
  - apply ordered_split. unfold images.
    rewrite get_image_files_sorted_glob. apply sorted_ordered.
Qed.

Lemma test_limit_keeps_smallest_names_witness :
  fst (limit_images (Sample.limit 2)
         (get_image_files Sample.world Sample.config_plain Sample.jan1)
         Sample.fresh)
  = inr [ "/var/www/html/images/2024/01/01/img_0500.jpg";
          "/var/www/html/images/2024/01/01/img_0630.jpg" ].
Proof.
  assert (Hk : 0 < 2) by reflexivity.
  exact (proj1 (proj2
           (test_limit_keeps_smallest_names Sample.world Sample.config_plain
              (Sample.limit 2) Sample.jan1 Sample.fresh 2
              eq_refl eq_refl Hk))).
Defined.

(** ** Reading the progress stream *)

Lemma progress_loop_stops_at_blank (w : World) (before after : list string)
    (blank : string) (bar : tqdm) :
  PyStr.strip blank = "" ->
  progress_loop w bar (before ++ blank :: after) = progress_loop w bar before.
Proof.
  intros Hblank. revert bar.
  induction before as [| raw before IH]; intros bar.
  - cbn [app progress_loop]. unfold progress_step. now rewrite Hblank.
  - cbn [app progress_loop].
    destruct (progress_step w bar raw) as [| bar' | e]; try reflexivity.
    apply IH.
Qed.

(** A line that is empty once stripped ends the loop: what the encoder
    prints after it is never read, whatever came before. *)
Theorem nothing_is_read_after_a_blank_line
    (w : World) (before after : list string) (blank : string)
    (total_frames : Z) :
  PyStr.strip blank = "" ->
  parse_ffmpeg_progress w (before ++ blank :: after) total_frames
  = parse_ffmpeg_progress w before total_frames.
Proof.
  intros Hblank. unfold parse_ffmpeg_progress.
  now rewrite (progress_loop_stops_at_blank w before after blank _ Hblank).
Qed.

Lemma nothing_is_read_after_a_blank_line_witness :
  parse_ffmpeg_progress Sample.world
    (["frame=8" ++ nl] ++ (" " ++ nl) :: ["frame=9" ++ nl; "frame=x" ++ nl]) 10
  = inr (Tqdm 10 8).
Proof.
  rewrite (nothing_is_read_after_a_blank_line Sample.world ["frame=8" ++ nl]
             ["frame=9" ++ nl; "frame=x" ++ nl] (" " ++ nl) 10 eq_refl).
  reflexivity.
Defined.

Lemma progress_step_continue (w : World) (bar bar' : tqdm) (raw : string) :
  progress_step w bar raw = Continue bar' ->
  bar' = bar
  \/ exists frame, frame_of_line raw = Some frame /\ bar' = Tqdm (total bar) frame.
Proof.
  unfold progress_step, frame_of_line, PyStr.int.
  destruct (String.eqb (PyStr.strip raw) ""); [discriminate |].
  destruct (PyStr.startswith (PyStr.strip raw) "frame=");
    [| intros [= <-]; now left].
  destruct (nth_error (PyStr.split "=" (PyStr.strip raw)) 1) as [field |];
    [| discriminate].
  destruct (PyStr.int_result_of (PyStr.strip field)) as [frame | | digits];
    [| discriminate | discriminate].
  cbv zeta. destruct (tqdm_display w _); [discriminate |].
  intros [= <-]. right. exists frame. split; [reflexivity |].
  apply update_to_frame.
Qed.

Lemma progress_loop_provenance (w : World) (stdout : list string)
    (bar final : tqdm) :
  progress_loop w bar stdout = inr final ->
  total final = total bar
  /\ (n final = n bar
      \/ exists raw, In raw stdout /\ frame_of_line raw = Some (n final)).
Proof.
  revert bar. induction stdout as [| raw stdout IH]; intros bar.
  - intros [= <-]. split; [reflexivity | now left].
  - cbn [progress_loop].
    destruct (progress_step w bar raw) as [| bar' | e] eqn:Hstep.
    + intros [= <-]. split; [reflexivity | now left].
    + intros Hloop. destruct (IH bar' Hloop) as [Htotal Hn].
      apply progress_step_continue in Hstep
        as [-> | [frame [Hframe ->]]].
      * split; [exact Htotal |].
        destruct Hn as [Hn | [raw' [Hin Hraw']]]; [now left |].
        right. exists raw'. split; [now right | exact Hraw'].
      * cbn [total n] in *. split; [exact Htotal |].
        right. destruct Hn as [Hn | [raw' [Hin Hraw']]].
        -- exists raw. split; [now left | now rewrite Hn].
        -- exists raw'. split; [now right | exact Hraw'].
    + discriminate.
Qed.

(** When the monitor ends without an exception the bar still has the total
    it was given, and its counter is [0] or a frame number that one of the
    lines reported: the indicator never shows a number nobody printed. *)
Theorem indicator_shows_a_reported_frame
    (w : World) (stdout : list string) (total_frames : Z) (final : tqdm) :
  parse_ffmpeg_progress w stdout total_frames = inr final ->
  total final = total_frames
  /\ (n final = 0
      \/ exists raw, In raw stdout /\ frame_of_line raw = Some (n final)).
Proof.
  unfold parse_ffmpeg_progress.
  destruct (progress_loop w (tqdm_new total_frames) stdout) as [e | bar] eqn:Hloop;
    [discriminate |].
  destruct (tqdm_close w bar); [discriminate |].
  intros [= <-].
  exact (progress_loop_provenance w stdout _ bar Hloop).
Qed.

Lemma indicator_shows_a_reported_frame_witness :
  total (Tqdm 3 3) = 3
  /\ (n (Tqdm 3 3) = 0
      \/ exists raw, In raw Sample.ffmpeg_output
                     /\ frame_of_line raw = Some (n (Tqdm 3 3))).
Proof.
  exact (indicator_shows_a_reported_frame Sample.world Sample.ffmpeg_output 3
           (Tqdm 3 3) eq_refl).
Defined.

(** *** A printed frame number reads back *)

Lemma rstrip_cons_plain (c : ascii) (s : string) :
  PyStr.is_space c = false ->
  PyStr.rstrip (String c s) = String c (PyStr.rstrip s).
Proof.
  intros Hc. cbn [PyStr.rstrip]. rewrite Hc.
  now destruct (PyStr.rstrip s).
Qed.

Lemma plain_not_space (c : ascii) :
  plain_char c = true -> PyStr.is_space c = false.
Proof.
  unfold plain_char. intros H. apply andb_true_iff in H as [H _].
  now apply negb_true_iff in H.
Qed.

Lemma plain_not_equals (c : ascii) :
  plain_char c = true -> Ascii.eqb c "=" = false.
Proof.
  unfold plain_char. intros H. apply andb_true_iff in H as [_ H].
  now apply negb_true_iff in H.
Qed.

Lemma rstrip_plain_newline (s : string) :
  string_forallb plain_char s = true -> PyStr.rstrip (s ++ nl) = s.
Proof.
  induction s as [| c s IH]; [reflexivity |].
  cbn [string_forallb append]. intros H.
  apply andb_true_iff in H as [Hc Hs].
  rewrite (rstrip_cons_plain c _ (plain_not_space c Hc)). now rewrite IH.
Qed.

Lemma rstrip_plain (s : string) :
  string_forallb plain_char s = true -> PyStr.rstrip s = s.
Proof.
  induction s as [| c s IH]; [reflexivity |].
  cbn [string_forallb]. intros H.
  apply andb_true_iff in H as [Hc Hs].
  rewrite (rstrip_cons_plain c _ (plain_not_space c Hc)). now rewrite IH.
Qed.

Lemma lstrip_plain (s t : string) :
  string_forallb plain_char s = true -> s <> "" ->
  PyStr.lstrip (s ++ t) = s ++ t.
Proof.
  destruct s as [| c s]; [congruence |].
  cbn [string_forallb append PyStr.lstrip]. intros H _.
  apply andb_true_iff in H as [Hc _].
  now rewrite (plain_not_space c Hc).
Qed.

Lemma strip_plain (s : string) :
  string_forallb plain_char s = true -> PyStr.strip s = s.
Proof.
  intros Hs. unfold PyStr.strip. destruct s as [| c s]; [reflexivity |].
  replace (String c s) with (String c s ++ "") at 1
    by (clear; induction (String c s) as [| a u IH];
        [reflexivity | cbn [append]; now rewrite IH]).
  rewrite lstrip_plain by (exact Hs || discriminate).
  replace (String c s ++ "") with (String c s)
    by (clear; induction (String c s) as [| a u IH];
        [reflexivity | cbn [append]; now rewrite <- IH]).
  now apply rstrip_plain.
Qed.

Lemma split_plain (s : string) :
  string_forallb plain_char s = true -> PyStr.split "=" s = [s].
Proof.
  induction s as [| c s IH]; [reflexivity |].
  cbn [string_forallb PyStr.split]. intros H.
  apply andb_true_iff in H as [Hc Hs].
  now rewrite (plain_not_equals c Hc), (IH Hs).
Qed.

Lemma digits_plain (d : Decimal.uint) :
  string_forallb plain_char (NilEmpty.string_of_uint d) = true.
Proof.
  induction d; cbn [NilEmpty.string_of_uint string_forallb];
    [reflexivity | rewrite IHd; reflexivity ..].
Qed.

Lemma int_digits_digit (c : ascii) (k : Z) (prev : bool) (acc : Z) (s : string) :
  PyStr.digit_of c = Some k ->
  PyStr.int_digits prev acc (String c s) = PyStr.int_digits true (10 * acc + k) s.
Proof.
  intros Hc. cbn [PyStr.int_digits]. now rewrite Hc.
Qed.

Lemma int_digits_of_uint (d : Decimal.uint) (prev : bool) (acc : Z) :
  d <> Decimal.Nil \/ prev = true ->
  PyStr.int_digits prev acc (NilEmpty.string_of_uint d) = Some (dec_value acc d).
Proof.
  revert prev acc.
  induction d; intros prev acc Hd;
    cbn [NilEmpty.string_of_uint dec_value].
  1: { destruct Hd as [Hd | ->]; [congruence | reflexivity]. }
  all: erewrite int_digits_digit by reflexivity; apply IHd; now right.
Qed.

Lemma dec_value_of_uint_acc (d : Decimal.uint) (acc : positive) :
  Z.pos (Pos.of_uint_acc d acc) = dec_value (Z.pos acc) d.
Proof.
  revert acc. induction d; intros acc; cbn [Pos.of_uint_acc dec_value];
    [reflexivity | rewrite IHd; f_equal; lia ..].
Qed.

Lemma dec_value_of_uint (d : Decimal.uint) :
  Z.of_uint d = dec_value 0 d.
Proof.
  unfold Z.of_uint.
  induction d; cbn [Pos.of_uint dec_value];
    [reflexivity | exact IHd | cbn [Z.of_N]; apply dec_value_of_uint_acc ..].
Qed.

Lemma digit_run_digits (d : Decimal.uint) :
  PyStr.digit_run (NilEmpty.string_of_uint d)
  = (NilEmpty.string_of_uint d, "").
Proof.
  induction d; cbn [NilEmpty.string_of_uint PyStr.digit_run];
    [reflexivity | ..];
    match goal with
    | |- context [PyStr.digit_of ?c] =>
        replace (PyStr.digit_of c) with (Some (Z.of_nat (nat_of_ascii c) - 48))
          by reflexivity
    end;
    cbn [orb]; now rewrite IHd.
Qed.

Lemma count_digits_digits (d : Decimal.uint) :
  PyStr.count_digits (NilEmpty.string_of_uint d)
  = Z.of_nat (String.length (NilEmpty.string_of_uint d)).
Proof.
  induction d; cbn [NilEmpty.string_of_uint PyStr.count_digits String.length];
    [reflexivity | ..];
    match goal with
    | |- context [PyStr.digit_of ?c] =>
        replace (PyStr.digit_of c) with (Some (Z.of_nat (nat_of_ascii c) - 48))
          by reflexivity
    end;
    rewrite IHd; lia.
Qed.

Lemma int_result_of_digits (d : Decimal.uint) (sign : Z) (s : string) :
  d <> Decimal.Nil ->
  Z.of_nat (String.length (NilEmpty.string_of_uint d)) <= 4300 ->
  PyStr.strip s = s ->
  (match s with
   | String "+" r => (1, r)
   | String "-" r => (-1, r)
   | _ => (1, s)
   end) = (sign, NilEmpty.string_of_uint d) ->
  PyStr.int_result_of s = PyStr.Parsed (sign * Z.of_uint d).
Proof.
  intros Hd Hlen Hstrip Hsign. unfold PyStr.int_result_of.
  rewrite Hstrip, Hsign. cbn [fst snd].
  rewrite digit_run_digits. cbn [fst snd].
  rewrite (int_digits_of_uint d false 0) by now left.
  rewrite count_digits_digits. unfold PyStr.max_str_digits.
  destruct (Z.ltb_spec 4300
              (Z.of_nat (String.length (NilEmpty.string_of_uint d))));
    [lia |].
  cbn [String.eqb]. now rewrite dec_value_of_uint.
Qed.

Lemma int_of_str (z : Z) :
  Z.of_nat (String.length (PyStr.str_of_Z (Z.abs z))) <= 4300 ->
  PyStr.int (PyStr.str_of_Z z) = Some z.
Proof.
  unfold PyStr.int, PyStr.str_of_Z.
  destruct z as [| p | p];
    cbn [Z.abs Z.to_int NilEmpty.string_of_int]; intros Hlen.
  - reflexivity.
  - rewrite (int_result_of_digits (Pos.to_uint p) 1 _
               (DecimalPos.Unsigned.to_uint_nonnil p) Hlen
               (strip_plain _ (digits_plain _))).
    + pose proof (DecimalZ.of_to (Z.pos p)) as Hback.
      cbn [Z.to_int Z.of_int] in Hback. now rewrite Hback.
    + pose proof (DecimalPos.Unsigned.to_uint_nonnil p) as Hnil.
      destruct (Pos.to_uint p); [congruence | reflexivity ..].
  - assert (Hplain : string_forallb plain_char
                       (String "-" (NilEmpty.string_of_uint (Pos.to_uint p)))
                     = true)
      by (cbn [string_forallb]; now rewrite digits_plain).
    rewrite (int_result_of_digits (Pos.to_uint p) (-1) _
               (DecimalPos.Unsigned.to_uint_nonnil p) Hlen
               (strip_plain _ Hplain) eq_refl).
    pose proof (DecimalZ.of_to (Z.pos p)) as Hback.
    cbn [Z.to_int Z.of_int] in Hback. now rewrite Hback.
Qed.

Lemma str_of_Z_plain (z : Z) :
  string_forallb plain_char (PyStr.str_of_Z z) = true.
Proof.
  unfold PyStr.str_of_Z.
  destruct (Z.to_int z) as [d | d]; cbn [NilEmpty.string_of_int string_forallb];
    now rewrite digits_plain.
Qed.

Lemma prefix_app (p s : string) : prefix p (p ++ s) = true.
Proof.
  induction p as [| c p IH]; cbn [append prefix]; [now destruct s |].
  destruct (ascii_dec c c); [exact IH | congruence].
Qed.

(** The line ffmpeg prints for a frame number, [frame=<decimal>] and a line
    feed, is read back as that number, for every integer of at most 4300
    digits (beyond which [int] refuses); the loop then sets the indicator
    to it, unless redrawing the bar raises. *)
Theorem printed_frame_reads_back (w : World) (frame : Z) (bar : tqdm) :
  Z.of_nat (String.length (PyStr.str_of_Z (Z.abs frame))) <= 4300 ->
  frame_of_line (frame_line frame) = Some frame
  /\ progress_step w bar (frame_line frame)
     = match tqdm_display w (Tqdm (total bar) frame) with
       | Some e => Raise e
       | None => Continue (Tqdm (total bar) frame)
       end.
Proof.
  intros Hlen.
  assert (Hread : frame_of_line (frame_line frame) = Some frame).
  { unfold frame_of_line, frame_line.
    assert (Hstrip : PyStr.strip ("frame=" ++ PyStr.str_of_Z frame ++ nl)
                     = "frame=" ++ PyStr.str_of_Z frame).
    { unfold PyStr.strip. cbn [append PyStr.lstrip].
      change (PyStr.is_space "f") with false. cbv iota.
      rewrite !rstrip_cons_plain by reflexivity.
      now rewrite (rstrip_plain_newline _ (str_of_Z_plain frame)). }
    rewrite Hstrip. unfold PyStr.startswith. rewrite prefix_app.
    cbn [append String.eqb Ascii.eqb Bool.eqb].
    cbn [PyStr.split Ascii.eqb Bool.eqb].
    rewrite (split_plain _ (str_of_Z_plain frame)). cbn [nth_error].
    rewrite (strip_plain _ (str_of_Z_plain frame)).
    now apply int_of_str. }
  split; [exact Hread | now apply progress_step_frame].
Qed.

Lemma printed_frame_reads_back_witness :
  frame_of_line (frame_line 1234567) = Some 1234567
  /\ frame_of_line (frame_line (-42)) = Some (-42).
Proof.
  assert (Hfirst : Z.of_nat (String.length (PyStr.str_of_Z (Z.abs 1234567)))
                   <= 4300) by (cbn; discriminate).
  assert (Hsecond : Z.of_nat (String.length (PyStr.str_of_Z (Z.abs (-42))))
                    <= 4300) by (cbn; discriminate).
  exact (conj
           (proj1 (printed_frame_reads_back Sample.world 1234567 (Tqdm 0 0)
                     Hfirst))
           (proj1 (printed_frame_reads_back Sample.world (-42) (Tqdm 0 0)
                     Hsecond))).
Defined.

(** ** Test amounts out of range *)

Lemma limit_images_run (args : Args) (images : list string) (s : State) (k : Z) :
  test_amount_set args = Some k ->
  limit_images args images s
  = (inr (slice_to k images),
     record_event s
       (Logged Info "magenta"
          ("Using only the first " ++ PyStr.str_of_Z k ++ " images for testing"))).
Proof.
  intros Hset. unfold limit_images. now rewrite Hset.
Qed.

(** A test amount at least as large as the selection cuts nothing, although
    the log line about using only the first images is still written. *)
Theorem large_test_amount_keeps_everything
    (args : Args) (images : list string) (s : State) (k : Z) :
  test_amount args = Some k ->
  0 < k ->
  Z.of_nat (List.length images) <= k ->
  limit_images args images s
  = (inr images,
     record_event s
       (Logged Info "magenta"
          ("Using only the first " ++ PyStr.str_of_Z k ++ " images for testing"))).
Proof.
  intros Htest Hpos Hlen.
  assert (Hset : test_amount_set args = Some k).
  { unfold test_amount_set. rewrite Htest.
    destruct (Z.eqb_spec k 0); [lia | reflexivity]. }
  rewrite (limit_images_run args images s k Hset).
  rewrite slice_to_positive by lia.
  rewrite firstn_all2 by lia. reflexivity.
Qed.

Lemma large_test_amount_keeps_everything_witness :
  limit_images (Sample.limit 5) ["a.jpg"; "b.jpg"] Sample.fresh
  = (inr ["a.jpg"; "b.jpg"],
     {| dirs := [];
        events := [Logged Info "magenta"
                     "Using only the first 5 images for testing"] |}).
Proof.
  assert (Hpos : 0 < 5) by reflexivity.
  assert (Hlen : Z.of_nat (List.length ["a.jpg"; "b.jpg"]) <= 5)
    by (cbn; discriminate).
  exact (large_test_amount_keeps_everything (Sample.limit 5)
           ["a.jpg"; "b.jpg"] Sample.fresh 5 eq_refl Hpos Hlen).
Defined.

(** A negative test amount [k] does not keep the first images but drops the
    last [-k]: what is kept is a prefix of the selection, and what is dropped
    has [-k] entries, or all of them when there are fewer. *)
Theorem negative_test_amount_drops_the_tail
    (args : Args) (images : list string) (s : State) (k : Z) :
  test_amount args = Some k ->
  k < 0 ->
  exists used dropped : list string,
    fst (limit_images args images s) = inr used
    /\ images = (used ++ dropped)%list
    /\ Z.of_nat (List.length dropped)
       = Z.min (- k) (Z.of_nat (List.length images)).
Proof.
  intros Htest Hneg.
  assert (Hset : test_amount_set args = Some k).
  { unfold test_amount_set. rewrite Htest.
    destruct (Z.eqb_spec k 0); [lia | reflexivity]. }
  set (keep := Z.to_nat (Z.of_nat (List.length images) + k)).
  exists (firstn keep images), (skipn keep images).
  split; [| split].
  - rewrite (limit_images_run args images s k Hset). cbn [fst].
    unfold slice_to. destruct (Z.leb_spec 0 k); [lia | reflexivity].
  - symmetry. apply firstn_skipn.
  - rewrite length_skipn. unfold keep. lia.
Qed.

Lemma negative_test_amount_drops_the_tail_witness :
  exists used dropped : list string,
    fst (limit_images (Sample.limit (-1)) ["a.jpg"; "b.jpg"; "c.jpg"]
           Sample.fresh) = inr used
    /\ ["a.jpg"; "b.jpg"; "c.jpg"] = (used ++ dropped)%list
    /\ Z.of_nat (List.length dropped) = Z.min (- (-1)) 3.
Proof.
  assert (Hneg : -1 < 0) by reflexivity.
  exact (negative_test_amount_drops_the_tail (Sample.limit (-1))
           ["a.jpg"; "b.jpg"; "c.jpg"] Sample.fresh (-1) eq_refl Hneg).
Defined.

(** ** The steps of a run, one by one *)

Lemma log_info_run (message color : string) (st : State) :
  log_with_color message "info" color st
  = (inr tt, record_event st (Logged Info color message)).
Proof. reflexivity. Qed.

Lemma create_ffmpeg_file_list_run (w : World) (images : list string) (st : State) :
  create_ffmpeg_file_list w images st
  = match open_w w "ffmpeg_images.txt" with
    | Some e => (inl e, st)
    | None =>
        (inr "ffmpeg_images.txt",
         record_event st
           (WroteText "ffmpeg_images.txt"
              (String.concat "" (map manifest_line images))))
    end.
Proof.
  unfold create_ffmpeg_file_list.
  now destruct (open_w w "ffmpeg_images.txt").
Qed.

Lemma build_output_path_run (w : World) (config : Config) (date : Z) (st : State) :
  build_output_path w config date st
  = if existsb (String.eqb (output_folder_of w config date)) (dirs st)
    then (inr (output_path_of w config date), st)
    else match makedirs_fail w (output_folder_of w config date) with
         | Some e => (inl e, st)
         | None =>
             (inr (output_path_of w config date),
              {| dirs := output_folder_of w config date :: dirs st;
                 events := (events st
                            ++ [MadeDirs (output_folder_of w config date)])%list |})
         end.
Proof.
  unfold build_output_path, bind, makedirs_exist_ok.
  fold (output_folder_of w config date).
  destruct (existsb (String.eqb (output_folder_of w config date)) (dirs st));
    [reflexivity |].
  now destruct (makedirs_fail w (output_folder_of w config date)).
Qed.

Lemma run_popen_run (w : World) (argv : list string) (st : State) :
  run_popen w argv st
  = match popen w argv with
    | inl e => (inl e, st)
    | inr out => (inr out, record_event st (Launched argv))
    end.
Proof.
  unfold run_popen. now destruct (popen w argv).
Qed.

Lemma lift_run {A : Type} (r : Exn + A) (st : State) :
  lift r st = match r with
              | inl e => (inl e, st)
              | inr a => (inr a, st)
              end.
Proof. now destruct r. Qed.

Lemma save_metadata_to_json_run (w : World) (config : Config)
    (output_path : string) (doc : list (string * JValue)) (st : State) :
  save_metadata_to_json w config output_path doc st
  = match open_w w (PyStr.replace (fn_extension (filename config)) ".json"
                      output_path) with
    | Some e => (inl e, st)
    | None =>
        (inr tt,
         record_event
           (record_event st
              (WroteJson
                 (PyStr.replace (fn_extension (filename config)) ".json"
                    output_path) doc))
           (Logged Info "green"
              ("Metadata saved to "
               ++ PyStr.replace (fn_extension (filename config)) ".json"
                    output_path)))
    end.
Proof.
  unfold save_metadata_to_json.
  now destruct (open_w w _).
Qed.

(** ** What a run does, and in which order *)

Ltac settle_effects :=
  intros Hrun; injection Hrun as <- <-;
  cbn [fst snd record_event events dirs];
  eexists; eexists;
  split;
  [ rewrite <- ?app_assoc;
    first [ reflexivity | exact (eq_sym (app_nil_r _)) ]
  | split;
    [ unfold launched_command, non_log;
      cbn [app filter is_log negb]; reflexivity
    | split;
      [ first [ discriminate | intros _; reflexivity ]
      | first [ discriminate | intros; reflexivity ] ] ] ].

Lemma encode_and_record_outcome (w : World) (config : Config) (args : Args)
    (date start_time : Z) (images : list string) (st : State) :
  exists added rest : list Event,
    events (snd (encode_and_record w config args date start_time images st))
    = (events st ++ added)%list
    /\ planned_effects w config args date start_time images st
       = (non_log added ++ rest)%list
    /\ (fst (encode_and_record w config args date start_time images st) = inr tt
        -> rest = [])
    /\ (forall e,
          fst (encode_and_record w config args date start_time images st) = inl e
          -> existsb is_json added = false).
Proof.
  destruct (encode_and_record w config args date start_time images st)
    as [r st'] eqn:Hrun.
  cbn [fst snd]. revert Hrun.
  unfold planned_effects, encode_and_record.
  unfold bind at 1. rewrite create_ffmpeg_file_list_run.
  destruct (open_w w "ffmpeg_images.txt") as [e |]; [settle_effects |].
  unfold bind at 1. rewrite build_output_path_run.
  cbn [dirs record_event].
  destruct (existsb (String.eqb (output_folder_of w config date)) (dirs st));
    [| destruct (makedirs_fail w (output_folder_of w config date)) as [e |];
       [settle_effects |] ].
  all: cbv zeta; unfold bind at 1; rewrite log_info_run.
  all: unfold bind at 1; rewrite run_popen_run.
  all: fold (launched_command w config date).
  all: destruct (popen w (launched_command w config date)) as [e | out];
    [settle_effects |].
  all: unfold bind at 1; rewrite lift_run.
  all: destruct (parse_ffmpeg_progress w out (Z.of_nat (List.length images)))
    as [e | bar]; [settle_effects |].
  all: unfold bind at 1; rewrite lift_run.
  all: destruct (getsize w (output_path_of w config date)) as [e | file_size];
    [destruct (md_save_to_file (metadata config)); settle_effects |].
  all: unfold bind at 1; rewrite log_info_run.
  all: unfold bind at 1; rewrite log_info_run.
  all: unfold bind at 1; rewrite log_info_run.
  all: destruct (md_save_to_file (metadata config));
    [rewrite save_metadata_to_json_run;
     destruct (open_w w _) as [e |] |].
  all: settle_effects.
Qed.

Lemma create_timelapse_try_unfold (w : World) (config : Config) (args : Args)
    (date : Z) (st : State) :
  create_timelapse_try w config args date st
  = match fst (select_images w config date st) with
    | inl e => (inl e, state_after_selection w config date st)
    | inr [] =>
        (inr tt,
         record_event (state_after_selection w config date st)
           (Logged Error "red"
              ("No images found for the selected date: " ++ str_date w date)))
    | inr (image :: images) =>
        encode_and_record w config args date (now_start w)
          (used_images args (image :: images))
          (state_before_encoding w config args date st)
    end.
Proof.
  unfold create_timelapse_try.
  unfold bind at 1. rewrite log_info_run.
  unfold bind at 1. rewrite (select_images_run w config date _ st).
  fold (state_after_selection w config date st).
  destruct (fst (select_images w config date st)) as [e | [| image images]];
    [reflexivity | reflexivity |].
  unfold bind at 1, limit_images, used_images, state_before_encoding.
  destruct (test_amount_set args) as [k |]; reflexivity.
Qed.

Lemma state_after_selection_events (w : World) (config : Config) (date : Z)
    (st : State) :
  exists logs : list Event,
    events (state_after_selection w config date st) = (events st ++ logs)%list
    /\ non_log logs = []
    /\ forallb is_log logs = true
    /\ dirs (state_after_selection w config date st) = dirs st.
Proof.
  unfold state_after_selection.
  destruct (ii_morning_to_morning (image_input config));
    cbn [record_event events dirs]; eexists;
    (split; [rewrite <- ?app_assoc; reflexivity | repeat split]).
Qed.

Lemma state_before_encoding_events (w : World) (config : Config) (args : Args)
    (date : Z) (st : State) :
  exists logs : list Event,
    events (state_before_encoding w config args date st)
    = (events st ++ logs)%list
    /\ non_log logs = []
    /\ forallb is_log logs = true
    /\ dirs (state_before_encoding w config args date st) = dirs st.
Proof.
  destruct (state_after_selection_events w config date st)
    as [logs [Hev [Hnon [Hlog Hdirs]]]].
  unfold state_before_encoding.
  destruct (test_amount_set args) as [k |].
  - eexists. cbn [record_event events dirs]. rewrite Hev, <- app_assoc.
    split; [reflexivity |]. unfold non_log in *.
    rewrite filter_app, forallb_app, Hnon, Hlog. repeat split. exact Hdirs.
  - exists logs. repeat split; assumption.
Qed.

Lemma non_log_app (x y : list Event) :
  non_log (x ++ y) = (non_log x ++ non_log y)%list.
Proof. apply filter_app. Qed.

Lemma planned_effects_dirs (w : World) (config : Config) (args : Args)
    (date start_time : Z) (images : list string) (s1 s2 : State) :
  dirs s1 = dirs s2 ->
  planned_effects w config args date start_time images s1
  = planned_effects w config args date start_time images s2.
Proof.
  intros Hdirs. unfold planned_effects. now rewrite Hdirs.
Qed.

Lemma non_log_has_json (evs : list Event) :
  existsb is_json (non_log evs) = existsb is_json evs.
Proof.
  unfold non_log. induction evs as [| ev evs IH]; [reflexivity |].
  cbn [filter existsb]. destruct ev; cbn [is_log negb is_json existsb orb];
    rewrite ?IH; reflexivity.
Qed.

(** The body of the [try] statement: what it adds to the record, against the
    plan for the images it works on. *)
Lemma create_timelapse_try_outcome (w : World) (config : Config) (args : Args)
    (date : Z) (st : State) :
  exists (added rest : list Event) (images : list string),
    events (snd (create_timelapse_try w config args date st))
    = (events st ++ added)%list
    /\ planned_effects w config args date (now_start w) images st
       = (non_log added ++ rest)%list
    /\ (forall e, fst (create_timelapse_try w config args date st) = inl e ->
                  existsb is_json added = false)
    /\ (forall selection,
          fst (select_images w config date st) = inr selection ->
          selection <> [] ->
          images = used_images args selection
          /\ (fst (create_timelapse_try w config args date st) = inr tt ->
              rest = [])).
Proof.
  rewrite create_timelapse_try_unfold.
  destruct (fst (select_images w config date st)) as [e | [| image selection]].
  - destruct (state_after_selection_events w config date st)
      as [logs [Hev [Hnon [Hlog _]]]].
    exists logs, (planned_effects w config args date (now_start w) [] st), [].
    cbn [fst snd]. rewrite Hnon. split; [exact Hev |]. split; [reflexivity |].
    split; [| discriminate].
    intros _ _. rewrite <- non_log_has_json. now rewrite Hnon.
  - destruct (state_after_selection_events w config date st)
      as [logs [Hev [Hnon [Hlog _]]]].
    eexists (logs ++ [_])%list,
      (planned_effects w config args date (now_start w) [] st), [].
    cbn [fst snd record_event events].
    rewrite Hev, <- app_assoc. split; [reflexivity |].
    rewrite non_log_app, Hnon. split; [reflexivity |].
    split; [discriminate |].
    intros selection' [= <-]. congruence.
  - destruct (state_before_encoding_events w config args date st)
      as [logs [Hev [Hnon [Hlog Hdirs]]]].
    destruct (encode_and_record_outcome w config args date (now_start w)
                (used_images args (image :: selection))
                (state_before_encoding w config args date st))
      as [added [rest [Hadded [Hplan [Hdone Hfail]]]]].
    exists (logs ++ added)%list, rest, (used_images args (image :: selection)).
    split; [now rewrite Hadded, Hev, <- app_assoc |].
    split.
    { rewrite non_log_app, Hnon.
      now rewrite <- (planned_effects_dirs w config args date (now_start w)
                        _ _ _ Hdirs). }
    split.
    { intros e He. rewrite existsb_app, (Hfail e He).
      rewrite <- non_log_has_json, Hnon. reflexivity. }
    intros selection' [= <-] _. split; [reflexivity | exact Hdone].
Qed.

Lemma create_timelapse_run (w : World) (config : Config) (args : Args)
    (date : Z) (st : State) :
  create_timelapse w config args date st
  = match fst (create_timelapse_try w config args date st) with
    | inl e =>
        (inr tt,
         record_event (snd (create_timelapse_try w config args date st))
           (Logged Error "red" ("Error creating timelapse: " ++ exn_text e)))
    | inr a => (inr a, snd (create_timelapse_try w config args date st))
    end.
Proof.
  unfold create_timelapse, try_except.
  now destruct (create_timelapse_try w config args date st) as [[e | a] st1].
Qed.

Lemma last_snoc (x d : Event) (l : list Event) : last (l ++ [x]) d = x.
Proof.
  induction l as [| y l IH]; [reflexivity |].
  cbn [app]. destruct (l ++ [x])%list eqn:Hl.
  - now destruct l.
  - cbn [last]. cbn [last] in IH. exact IH.
Qed.

Lemma create_timelapse_plan_prefix
    (w : World) (config : Config) (args : Args) (date : Z) (st : State) :
  exists (added rest : list Event) (images : list string),
    events (snd (create_timelapse w config args date st))
    = (events st ++ added)%list
    /\ planned_effects w config args date (now_start w) images st
       = (non_log added ++ rest)%list.
Proof.
  destruct (create_timelapse_try_outcome w config args date st)
    as [added [rest [images [Hev [Hplan _]]]]].
  rewrite create_timelapse_run.
  destruct (fst (create_timelapse_try w config args date st)) as [e | []].
  - eexists (added ++ [_])%list, rest, images.
    cbn [snd record_event events]. rewrite Hev, <- app_assoc.
    split; [reflexivity |]. rewrite non_log_app. cbn [non_log filter is_log negb].
    now rewrite app_nil_r.
  - exists added, rest, images. cbn [snd]. now split.
Qed.

(** Besides log lines a run does, in this order and each at most once:
    write the manifest, make the output folder unless it exists, start the
    encoder, write the sidecar if that is switched on.  Every run performs an
    initial part of this plan, and a run on a non-empty selection whose [try]
    body ends normally performs all of it, on the images left after the
    test cut. *)
Theorem effects_follow_the_plan
    (w : World) (config : Config) (args : Args) (date : Z) (st : State) :
  exists (added rest : list Event) (images : list string),
    events (snd (create_timelapse w config args date st))
    = (events st ++ added)%list
    /\ planned_effects w config args date (now_start w) images st
       = (non_log added ++ rest)%list
    /\ (forall selection,
          fst (select_images w config date st) = inr selection ->
          selection <> [] ->
          images = used_images args selection
          /\ (fst (create_timelapse_try w config args date st) = inr tt ->
              rest = [])).
Proof.
  destruct (create_timelapse_try_outcome w config args date st)
    as [added [rest [images [Hev [Hplan [_ Hsel]]]]]].
  rewrite create_timelapse_run.
  destruct (fst (create_timelapse_try w config args date st)) as [e | []].
  - eexists (added ++ [_])%list, rest, images.
    cbn [snd record_event events]. rewrite Hev, <- app_assoc.
    split; [reflexivity |]. rewrite non_log_app. cbn [non_log filter is_log negb].
    rewrite app_nil_r. split; [exact Hplan | exact Hsel].
  - exists added, rest, images. cbn [snd].
    split; [exact Hev |]. split; [exact Hplan | exact Hsel].
Qed.

(** Every step that can raise comes before the sidecar is written: when
    the [try] body raises although writing the sidecar would succeed, the
    exception came from an earlier step, and the run has written no sidecar
    and ends with the error line. *)
Theorem failed_run_leaves_no_sidecar
    (w : World) (config : Config) (args : Args) (date : Z) (st : State)
    (e : Exn) :
  fst (create_timelapse_try w config args date st) = inl e ->
  open_w w (PyStr.replace (fn_extension (filename config)) ".json"
              (output_path_of w config date)) = None ->
  exists added : list Event,
    events (snd (create_timelapse w config args date st))
    = (events st ++ added)%list
    /\ existsb is_json added = false
    /\ last added (Launched [])
       = Logged Error "red" ("Error creating timelapse: " ++ exn_text e).
Proof.
  intros Hfail _.
  destruct (create_timelapse_try_outcome w config args date st)
    as [added [rest [images [Hev [_ [Hjson _]]]]]].
  rewrite create_timelapse_run, Hfail.
  eexists (added ++ [_])%list.
  cbn [snd record_event events]. rewrite Hev, <- app_assoc.
  split; [reflexivity |]. split.
  - rewrite existsb_app, (Hjson e Hfail). reflexivity.
  - apply last_snoc.
Qed.

Lemma failed_run_leaves_no_sidecar_witness :
  fst (create_timelapse_try Cases.world_bad_frame Sample.config_plain
         Sample.no_limit Sample.jan1 Sample.fresh)
  = inl (ValueError "invalid literal for int() with base 10: 'N/A'")
  /\ exists added : list Event,
       events (snd (create_timelapse Cases.world_bad_frame Sample.config_plain
                      Sample.no_limit Sample.jan1 Sample.fresh))
       = (events Sample.fresh ++ added)%list
       /\ existsb is_json added = false
       /\ last added (Launched [])
          = Logged Error "red"
              ("Error creating timelapse: "
               ++ exn_text
                    (ValueError "invalid literal for int() with base 10: 'N/A'")).
Proof.
  split; [reflexivity |].
  exact (failed_run_leaves_no_sidecar Cases.world_bad_frame Sample.config_plain
           Sample.no_limit Sample.jan1 Sample.fresh _ eq_refl eq_refl).
Defined.

Lemma prefix_of_plan_no_json (w : World) (config : Config) (args : Args)
    (date start_time : Z) (images : list string) (st : State) :
  md_save_to_file (metadata config) = false ->
  existsb is_json (planned_effects w config args date start_time images st)
  = false.
Proof.
  intros Hoff. unfold planned_effects. rewrite Hoff.
  rewrite !existsb_app.
  destruct (existsb (String.eqb (output_folder_of w config date)) (dirs st));
    reflexivity.
Qed.

(** With metadata persistence switched off no run writes a sidecar. *)
Theorem no_sidecar_unless_enabled
    (w : World) (config : Config) (args : Args) (date : Z) (st : State) :
  md_save_to_file (metadata config) = false ->
  exists added : list Event,
    events (snd (create_timelapse w config args date st))
    = (events st ++ added)%list
    /\ existsb is_json added = false.
Proof.
  intros Hoff.
  destruct (create_timelapse_try_outcome w config args date st)
    as [added [rest [images [Hev [Hplan _]]]]].
  assert (Hjson : existsb is_json added = false).
  { rewrite <- non_log_has_json.
    pose proof (prefix_of_plan_no_json w config args date (now_start w)
                  images st Hoff) as Hnone.
    rewrite Hplan, existsb_app in Hnone.
    now apply orb_false_iff in Hnone. }
  rewrite create_timelapse_run.
  destruct (fst (create_timelapse_try w config args date st)) as [e | []].
  - eexists (added ++ [_])%list.
    cbn [snd record_event events]. rewrite Hev, <- app_assoc.
    split; [reflexivity |]. rewrite existsb_app, Hjson. reflexivity.
  - exists added. cbn [snd]. now split.
Qed.

Lemma no_sidecar_unless_enabled_witness :
  exists added : list Event,
    events (snd (create_timelapse Sample.world Cases.config_no_sidecar
                   Sample.no_limit Sample.jan1 Sample.fresh))
    = (events Sample.fresh ++ added)%list
    /\ existsb is_json added = false.
Proof.
  exact (no_sidecar_unless_enabled Sample.world Cases.config_no_sidecar
           Sample.no_limit Sample.jan1 Sample.fresh eq_refl).
Defined.

Lemma in_non_log (ev : Event) (evs : list Event) :
  In ev evs -> is_log ev = false -> In ev (non_log evs).
Proof.
  intros Hin Hlog. unfold non_log. apply filter_In.
  split; [exact Hin | now rewrite Hlog].
Qed.

(** The encoder is only ever started with the command built for the fixed
    manifest name and the output path of the date, followed by the three
    progress arguments; and whenever it is started, the first thing the run
    did besides logging was to write that manifest. *)
Theorem encoder_runs_on_the_manifest
    (w : World) (config : Config) (args : Args) (date : Z) (st : State) :
  exists added : list Event,
    events (snd (create_timelapse w config args date st))
    = (events st ++ added)%list
    /\ forall argv : list string,
         In (Launched argv) added ->
         argv = launched_command w config date
         /\ exists content : string,
              hd_error (non_log added)
              = Some (WroteText "ffmpeg_images.txt" content).
Proof.
  destruct (create_timelapse_plan_prefix w config args date st)
    as [added [rest [images [Hev Hplan]]]].
  exists added. split; [exact Hev |].
  intros argv Hin.
  assert (Hnon : In (Launched argv) (non_log added))
    by now apply in_non_log.
  assert (Hplanned : In (Launched argv)
                        (planned_effects w config args date (now_start w)
                           images st))
    by (rewrite Hplan; apply in_or_app; now left).
  split.
  - unfold planned_effects in Hplanned.
    cbn [app] in Hplanned. destruct Hplanned as [Habs | Hplanned];
      [discriminate |].
    apply in_app_or in Hplanned as [Hdir | Hplanned].
    { destruct (existsb (String.eqb (output_folder_of w config date)) (dirs st));
        [contradiction |].
      destruct Hdir as [Habs | []]. discriminate. }
    destruct Hplanned as [Heq | Hjson]; [now injection Heq |].
    destruct (md_save_to_file (metadata config)); [| contradiction].
    destruct (getsize w (output_path_of w config date)); [contradiction |].
    destruct Hjson as [Habs | []]. discriminate.
  - destruct (non_log added) as [| first others]; [contradiction |].
    unfold planned_effects in Hplan. cbn [app] in Hplan.
    injection Hplan as Hfirst _. eexists. cbn [hd_error]. now rewrite <- Hfirst.
Qed.

(** When the selection itself raises (an unreadable morning time, a date
    without a next day), the run ends with the error line and has done
    nothing but log: no manifest, no folder, no encoder, no sidecar. *)
Theorem selection_error_only_logs
    (w : World) (config : Config) (args : Args) (date : Z) (st : State)
    (e : Exn) :
  fst (select_images w config date st) = inl e ->
  exists added : list Event,
    create_timelapse w config args date st
    = (inr tt, {| dirs := dirs st; events := (events st ++ added)%list |})
    /\ forallb is_log added = true
    /\ last added (Launched [])
       = Logged Error "red" ("Error creating timelapse: " ++ exn_text e).
Proof.
  intros Hsel.
  destruct (state_after_selection_events w config date st)
    as [logs [Hev [_ [Hlogs Hdirs]]]].
  rewrite create_timelapse_run, create_timelapse_try_unfold, Hsel.
  cbn [fst snd].
  eexists (logs ++ [_])%list. split; [| split].
  - unfold record_event. now rewrite Hev, Hdirs, <- app_assoc.
  - rewrite forallb_app, Hlogs. reflexivity.
  - apply last_snoc.
Qed.

Lemma selection_error_only_logs_witness :
  fst (select_images Sample.world Cases.config_bad_time Sample.jan1 Sample.fresh)
  = inl (ValueError "time data '6am' does not match format '%H:%M'")
  /\ exists added : list Event,
       create_timelapse Sample.world Cases.config_bad_time Sample.no_limit
         Sample.jan1 Sample.fresh
       = (inr tt, {| dirs := []; events := ([] ++ added)%list |})
       /\ forallb is_log added = true
       /\ last added (Launched [])
          = Logged Error "red"
              ("Error creating timelapse: "
               ++ exn_text
                    (ValueError "time data '6am' does not match format '%H:%M'")).
Proof.
  split; [reflexivity |].
  exact (selection_error_only_logs Sample.world Cases.config_bad_time
           Sample.no_limit Sample.jan1 Sample.fresh _ eq_refl).
Defined.

(** The emptiness check comes before the test cut: a negative test amount
    that drops every selected image does not stop the run, which goes on to
    write an empty manifest and to encode no image at all. *)
Theorem emptied_selection_still_encodes
    (w : World) (config : Config) (args : Args) (date : Z) (st : State)
    (selection : list string) (k : Z) :
  fst (select_images w config date st) = inr selection ->
  selection <> [] ->
  test_amount args = Some k ->
  k <= - Z.of_nat (List.length selection) ->
  create_timelapse_try w config args date st
  = encode_and_record w config args date (now_start w) []
      (state_before_encoding w config args date st)
  /\ (open_w w "ffmpeg_images.txt" = None ->
      exists after : list Event,
        events (snd (create_timelapse_try w config args date st))
        = (events (state_before_encoding w config args date st)
           ++ WroteText "ffmpeg_images.txt" "" :: after)%list).
Proof.
  intros Hsel Hnonempty Htest Hk.
  assert (Hlen : 0 < Z.of_nat (List.length selection))
    by (destruct selection; [congruence | cbn [List.length]; lia]).
  assert (Hused : used_images args selection = []).
  { unfold used_images, test_amount_set. rewrite Htest.
    destruct (Z.eqb_spec k 0); [lia |].
    unfold slice_to. destruct (Z.leb_spec 0 k); [lia |].
    replace (Z.to_nat (Z.of_nat (List.length selection) + k)) with 0%nat by lia.
    reflexivity. }
  assert (Hrun : create_timelapse_try w config args date st
                 = encode_and_record w config args date (now_start w) []
                     (state_before_encoding w config args date st)).
  { rewrite create_timelapse_try_unfold, Hsel.
    destruct selection as [| image selection]; [congruence |].
    now rewrite Hused. }
  split; [exact Hrun |].
  intros Hopen. rewrite Hrun.
  exact (encode_and_record_manifest w config args date (now_start w) []
           (state_before_encoding w config args date st) Hopen).
Qed.

Lemma emptied_selection_still_encodes_witness :
  launches (events (snd (create_timelapse_try Sample.world Sample.config_plain
                           (Sample.limit (-3)) Sample.jan1 Sample.fresh)))
  = 1%nat
  /\ create_timelapse_try Sample.world Sample.config_plain (Sample.limit (-3))
       Sample.jan1 Sample.fresh
     = encode_and_record Sample.world Sample.config_plain (Sample.limit (-3))
         Sample.jan1 (now_start Sample.world) []
         (state_before_encoding Sample.world Sample.config_plain
            (Sample.limit (-3)) Sample.jan1 Sample.fresh).
Proof.
  split; [reflexivity |].
  assert (Hne : [ "/var/www/html/images/2024/01/01/img_0500.jpg";
                  "/var/www/html/images/2024/01/01/img_0630.jpg";
                  "/var/www/html/images/2024/01/01/img_1200.jpg" ] <> [])
    by discriminate.
  assert (Hk : -3 <= - Z.of_nat (List.length
                  [ "/var/www/html/images/2024/01/01/img_0500.jpg";
                    "/var/www/html/images/2024/01/01/img_0630.jpg";
                    "/var/www/html/images/2024/01/01/img_1200.jpg" ]))
    by (cbn; discriminate).
  exact (proj1 (emptied_selection_still_encodes Sample.world Sample.config_plain
                  (Sample.limit (-3)) Sample.jan1 Sample.fresh _ (-3)
                  eq_refl Hne eq_refl Hk)).
Defined.

(** ** The output path and the sidecar name *)

Lemma append_assoc (a b c : string) : (a ++ b) ++ c = a ++ b ++ c.
Proof.
  induction a as [| x a IH]; [reflexivity |].
  cbn [append]. now rewrite IH.
Qed.

Lemma path_join_ends (a b : string) :
  exists lead : string, path_join a b = lead ++ b.
Proof.
  unfold path_join.
  destruct (PyStr.startswith b "/"); [now exists "" |].
  destruct (String.eqb a ""); [now exists "" |].
  destruct (String.eqb _ "/").
  - now exists a.
  - exists (a ++ "/"). now rewrite append_assoc.
Qed.

(** Every path [build_output_path] returns ends with the configured
    extension, and before it with the prefix, the date and the suffix. *)
Theorem output_path_ends_with_extension
    (w : World) (config : Config) (date : Z) (st st1 : State) (p : string) :
  build_output_path w config date st = (inr p, st1) ->
  exists lead qualifier : string,
    p = lead
        ++ (fn_prefix (filename config) ++ strftime_date w date "%Y_%m_%d"
            ++ fn_suffix (filename config))
        ++ qualifier ++ fn_extension (filename config)
    /\ filename_safe qualifier = true.
Proof.
  rewrite build_output_path_run. intros Hrun.
  assert (Hp : p = output_path_of w config date).
  { destruct (existsb _ (dirs st)); [now injection Hrun |].
    destruct (makedirs_fail w _); [discriminate | now injection Hrun]. }
  subst p. unfold output_path_of.
  destruct (path_join_ends (output_folder_of w config date)
              (append_metadata_to_filename config
                 (fn_prefix (filename config) ++ strftime_date w date "%Y_%m_%d"
                  ++ fn_suffix (filename config))
               ++ fn_extension (filename config))) as [lead Hlead].
  destruct (qualifier_parts config
              (fn_prefix (filename config) ++ strftime_date w date "%Y_%m_%d"
               ++ fn_suffix (filename config))) as [qualifier [Hq Hsafe]].
  exists lead, qualifier. split; [| exact Hsafe].
  now rewrite Hlead, Hq, append_assoc.
Qed.

Lemma output_path_ends_with_extension_witness :
  exists lead qualifier : string,
    "/var/www/html/videos/2024/01/timelapse_2024_01_01.mp4"
    = lead ++ ("timelapse_" ++ "2024_01_01" ++ "") ++ qualifier ++ ".mp4"
    /\ filename_safe qualifier = true.
Proof.
  exact (output_path_ends_with_extension Sample.world Sample.config_plain
           Sample.jan1 Sample.fresh _ _ eq_refl).
Defined.

Lemma append_nil_r (s : string) : s ++ "" = s.
Proof.
  induction s as [| c s IH]; [reflexivity |].
  cbn [append]. now rewrite IH.
Qed.

Lemma prefix_true_split (p s : string) :
  prefix p s = true -> exists post : string, s = p ++ post.
Proof.
  revert s. induction p as [| c p IH]; intros s.
  - intros _. now exists s.
  - destruct s as [| a s]; cbn [prefix]; [discriminate |].
    destruct (ascii_dec c a) as [<- | Hneq]; [| discriminate].
    intros Hp. destruct (IH s Hp) as [post ->]. now exists post.
Qed.

Lemma prefix_refl (p : string) : prefix p p = true.
Proof.
  rewrite <- (append_nil_r p) at 2. apply prefix_app.
Qed.

Lemma replace_from_skips (old new s : string) :
  PyStr.replace_from old new (String.length s) s = "".
Proof.
  induction s as [| c s IH]; [reflexivity |].
  cbn [String.length PyStr.replace_from]. exact IH.
Qed.

Lemma replace_from_only_at_end (c : ascii) (e new stem : string) :
  occurs_within (String c e) stem = false ->
  PyStr.replace_from (String c e) new O (stem ++ String c e) = stem ++ new.
Proof.
  induction stem as [| a stem IH]; intros Hocc.
  - cbn [append PyStr.replace_from].
    rewrite (prefix_refl (String c e)).
    cbn [String.length Nat.pred].
    rewrite replace_from_skips. apply append_nil_r.
  - cbn [occurs_within] in Hocc. apply orb_false_iff in Hocc as [Hhere Hlater].
    cbn [append] in *. cbn [PyStr.replace_from].
    rewrite Hhere. now rewrite (IH Hlater).
Qed.

(** What [occurs_within] decides: the extension text starts at some position
    of the stem. *)
Lemma occurs_within_spec (ext stem : string) :
  occurs_within ext stem = true
  <-> exists lead rest post : string,
        stem = lead ++ rest /\ rest <> "" /\ rest ++ ext = ext ++ post.
Proof.
  split.
  - induction stem as [| a stem IH]; [discriminate |].
    cbn [occurs_within]. intros H. apply orb_true_iff in H as [Hhere | Hlater].
    + apply prefix_true_split in Hhere as [post Hpost].
      exists "", (String a stem), post. repeat split; [discriminate | exact Hpost].
    + destruct (IH Hlater) as [lead [rest [post [-> [Hne Hpost]]]]].
      exists (String a lead), rest, post. repeat split; assumption.
  - intros [lead [rest [post [-> [Hne Hpost]]]]].
    induction lead as [| a lead IH].
    + destruct rest as [| a rest]; [congruence |].
      cbn [append occurs_within]. apply orb_true_iff. left.
      change (String a (rest ++ ext)) with (String a rest ++ ext).
      rewrite Hpost. apply prefix_app.
    + cbn [append occurs_within]. apply orb_true_iff. now right.
Qed.

(** When the extension is not empty and its text does not start anywhere
    before the end of the output path, the sidecar is written to the output
    path with the extension exchanged for [.json]. *)
Theorem sidecar_beside_the_video
    (w : World) (config : Config) (stem : string)
    (doc : list (string * JValue)) (st : State) :
  fn_extension (filename config) <> "" ->
  occurs_within (fn_extension (filename config)) stem = false ->
  open_w w (stem ++ ".json") = None ->
  save_metadata_to_json w config (stem ++ fn_extension (filename config)) doc st
  = (inr tt,
     record_event (record_event st (WroteJson (stem ++ ".json") doc))
       (Logged Info "green" ("Metadata saved to " ++ stem ++ ".json"))).
Proof.
  intros Hext Hocc Hopen. rewrite save_metadata_to_json_run.
  destruct (fn_extension (filename config)) as [| c e] eqn:Hshape;
    [congruence |].
  unfold PyStr.replace.
  rewrite (replace_from_only_at_end c e ".json" stem Hocc).
  now rewrite Hopen.
Qed.

Lemma sidecar_beside_the_video_witness :
  save_metadata_to_json Sample.world Sample.config_plain
    ("/var/www/html/videos/2024/01/timelapse_2024_01_01" ++ ".mp4") []
    Sample.fresh
  = (inr tt,
     {| dirs := [];
        events :=
          [ WroteJson "/var/www/html/videos/2024/01/timelapse_2024_01_01.json" [];
            Logged Info "green"
              "Metadata saved to /var/www/html/videos/2024/01/timelapse_2024_01_01.json" ] |}).
Proof.
  assert (Hext : fn_extension (filename Sample.config_plain) <> "")
    by discriminate.
  exact (sidecar_beside_the_video Sample.world Sample.config_plain
           "/var/www/html/videos/2024/01/timelapse_2024_01_01" []
           Sample.fresh Hext eq_refl eq_refl).
Defined.

(** ** The file size in the log and the sidecar *)

Lemma round_half_even_close (num den : Z) :
  0 < den -> 2 * Z.abs (num - round_half_even num den * den) <= den.
Proof.
  intros Hden. unfold round_half_even.
  pose proof (Z.div_mod num den ltac:(lia)) as Hdiv.
  pose proof (Z.mod_pos_bound num den Hden) as Hmod.
  destruct (Z.ltb_spec (2 * (num mod den)) den);
    [lia |].
  destruct (Z.ltb_spec den (2 * (num mod den))); [lia |].
  destruct (Z.even (num / den)); lia.
Qed.

Lemma round_half_even_tie (num den : Z) :
  0 < den ->
  2 * Z.abs (num - round_half_even num den * den) = den ->
  Z.even (round_half_even num den) = true.
Proof.
  intros Hden. unfold round_half_even.
  pose proof (Z.div_mod num den ltac:(lia)) as Hdiv.
  pose proof (Z.mod_pos_bound num den Hden) as Hmod.
  destruct (Z.ltb_spec (2 * (num mod den)) den); [lia |].
  destruct (Z.ltb_spec den (2 * (num mod den))); [lia |].
  destruct (Z.even (num / den)) eqn:Heven; [now intros _ |].
  intros _. rewrite Z.add_1_r, Z.even_succ, <- Z.negb_even, Heven. reflexivity.
Qed.

Lemma two_digits_length (k : Z) :
  0 <= k < 100 -> String.length (two_digits k) = 2%nat.
Proof.
  intros Hk.
  assert (Hall : forallb (fun i => Nat.eqb (String.length (two_digits (Z.of_nat i))) 2)
                         (seq 0 100) = true) by (vm_compute; reflexivity).
  rewrite forallb_forall in Hall.
  specialize (Hall (Z.to_nat k)).
  rewrite Z2Nat.id in Hall by lia.
  apply Nat.eqb_eq, Hall, in_seq. lia.
Qed.

(** The size string is the size over [1024 * 1024] rounded to the nearest
    hundredth, a tie going to the even hundredth: an integer part, a point
    and exactly two digits, off from the exact quotient by at most half a
    hundredth, and by exactly half only when the last digit is even.  So
    131072 bytes print as [0.12], 393216 bytes as [0.38], and a whole
    number of mebibytes [m] as [m.00]. *)
Theorem file_size_is_rounded_to_hundredths (file_size : Z) :
  0 <= file_size < 2 ^ 53 ->
  exists hundredths : Z,
    format_2f file_size (1024 * 1024)
    = PyStr.str_of_Z (hundredths / 100) ++ "." ++ two_digits (hundredths mod 100)
    /\ 0 <= hundredths
    /\ String.length (two_digits (hundredths mod 100)) = 2%nat
    /\ 2 * Z.abs (100 * file_size - hundredths * (1024 * 1024)) <= 1024 * 1024
    /\ (2 * Z.abs (100 * file_size - hundredths * (1024 * 1024)) = 1024 * 1024 ->
        Z.even hundredths = true)
    /\ (forall m, file_size = m * (1024 * 1024) -> hundredths = 100 * m)
    /\ format_2f 131072 (1024 * 1024) = "0.12"
    /\ format_2f 393216 (1024 * 1024) = "0.38".
Proof.
  intros Hsize.
  exists (round_half_even (file_size * 100) (1024 * 1024)).
  split; [reflexivity |].
  pose proof (round_half_even_close (file_size * 100) (1024 * 1024) ltac:(lia))
    as Hclose.
  pose proof (round_half_even_tie (file_size * 100) (1024 * 1024) ltac:(lia))
    as Htie.
  split; [lia |].
  split; [apply two_digits_length, Z.mod_pos_bound; lia |].
  split; [lia |].
  split; [intros Hhalf; apply Htie; lia |].
  split; [intros m ->; lia |].
  split; reflexivity.
Qed.

Lemma file_size_is_rounded_to_hundredths_witness :
  exists hundredths : Z,
    format_2f 10485760 (1024 * 1024)
    = PyStr.str_of_Z (hundredths / 100) ++ "." ++ two_digits (hundredths mod 100)
    /\ 0 <= hundredths
    /\ String.length (two_digits (hundredths mod 100)) = 2%nat
    /\ 2 * Z.abs (100 * 10485760 - hundredths * (1024 * 1024)) <= 1024 * 1024
    /\ (2 * Z.abs (100 * 10485760 - hundredths * (1024 * 1024)) = 1024 * 1024 ->
        Z.even hundredths = true)
    /\ (forall m, 10485760 = m * (1024 * 1024) -> hundredths = 100 * m)
    /\ format_2f 131072 (1024 * 1024) = "0.12"
    /\ format_2f 393216 (1024 * 1024) = "0.38".
Proof.
  assert (Hsize : 0 <= 10485760 < 2 ^ 53) by (split; [discriminate | reflexivity]).
  exact (file_size_is_rounded_to_hundredths 10485760 Hsize).
Defined.

(** ** The manifest *)

Lemma concat_lines (line : string) (lines : list string) :
  String.concat "" (line :: lines) = line ++ String.concat "" lines.
Proof.
  destruct lines as [| next lines]; cbn [String.concat append].
  - symmetry. apply append_nil_r.
  - reflexivity.
Qed.

Lemma manifest_line_quoted (image : string) :
  manifest_line image = quoted image ++ nl.
Proof.
  unfold manifest_line, quoted. now rewrite !append_assoc.
Qed.

Lemma quoted_one_line (image : string) :
  one_line image = true -> one_line (quoted image) = true.
Proof.
  unfold one_line, quoted. intros Himage.
  rewrite !string_forallb_app, Himage. reflexivity.
Qed.

Lemma split_first_line (line rest : string) :
  one_line line = true ->
  PyStr.split (ascii_of_nat 10) (line ++ nl ++ rest)
  = line :: PyStr.split (ascii_of_nat 10) rest.
Proof.
  unfold one_line.
  induction line as [| c line IH]; intros Hline.
  - reflexivity.
  - cbn [string_forallb] in Hline. apply andb_true_iff in Hline as [Hc Hline].
    apply negb_true_iff in Hc.
    cbn [append PyStr.split]. rewrite Hc.
    change (line ++ String (ascii_of_nat 10) rest) with (line ++ nl ++ rest).
    now rewrite (IH Hline).
Qed.

Lemma manifest_splits (images : list string) :
  forallb one_line images = true ->
  PyStr.split (ascii_of_nat 10) (String.concat "" (map manifest_line images))
  = (map quoted images ++ [""])%list.
Proof.
  induction images as [| image images IH]; [reflexivity |].
  cbn [forallb map]. intros H. apply andb_true_iff in H as [Himage Himages].
  rewrite concat_lines, manifest_line_quoted, append_assoc.
  rewrite (split_first_line _ _ (quoted_one_line image Himage)).
  cbn [app]. now rewrite (IH Himages).
Qed.

(** When the manifest can be opened and no image path holds a line feed,
    the text written to [ffmpeg_images.txt] splits at its line feeds into
    one line [file '<path>'] per image, in the order of the images, and
    nothing after the last line feed; the paths are copied as they are. *)
Theorem manifest_has_one_line_per_image
    (w : World) (images : list string) (st : State) :
  open_w w "ffmpeg_images.txt" = None ->
  forallb one_line images = true ->
  exists content : string,
    create_ffmpeg_file_list w images st
    = (inr "ffmpeg_images.txt",
       record_event st (WroteText "ffmpeg_images.txt" content))
    /\ PyStr.split (ascii_of_nat 10) content = (map quoted images ++ [""])%list.
Proof.
  intros Hopen Hlines. eexists. split.
  - now apply create_ffmpeg_file_list_writes.
  - now apply manifest_splits.
Qed.

Lemma manifest_has_one_line_per_image_witness :
  exists content : string,
    create_ffmpeg_file_list Sample.world ["a 1.jpg"; "b'2.jpg"] Sample.fresh
    = (inr "ffmpeg_images.txt",
       record_event Sample.fresh (WroteText "ffmpeg_images.txt" content))
    /\ PyStr.split (ascii_of_nat 10) content
       = (map quoted ["a 1.jpg"; "b'2.jpg"] ++ [""])%list.
Proof.
  exact (manifest_has_one_line_per_image Sample.world ["a 1.jpg"; "b'2.jpg"]
           Sample.fresh eq_refl eq_refl).
Defined.

(** ** Consecutive mornings *)

(** In the morning-to-morning mode, with modification times that can be
    read, the runs for two consecutive days share the folder of the second
    day without losing an image: each image of that folder is in the second
    part of the first run or in the first part of the second run, and in both
    only if it was modified exactly at the morning time. *)
Theorem consecutive_mornings_share_a_folder
    (w : World) (config : Config) (mtime : string -> Z) (date t : Z)
    (st : State) :
  ii_morning_to_morning (image_input config) = true ->
  strptime_HM (ii_morning_time (image_input config)) = inr t ->
  date_in_range (date + 1) = true ->
  date_in_range (date + 1 + 1) = true ->
  (forall d img, date <= d <= date + 1 + 1 ->
                 In img (get_image_files w config d) ->
                 getmtime w img = inr (mtime img)) ->
  fst (select_images w config date st)
  = inr (today_part w config mtime date t
         ++ tomorrow_part w config mtime date t)%list
  /\ fst (select_images w config (date + 1) st)
     = inr (today_part w config mtime (date + 1) t
            ++ tomorrow_part w config mtime (date + 1) t)%list
  /\ forall img : string,
       In img (get_image_files w config (date + 1)) ->
       (In img (tomorrow_part w config mtime date t)
        \/ In img (today_part w config mtime (date + 1) t))
       /\ (In img (tomorrow_part w config mtime date t) ->
           In img (today_part w config mtime (date + 1) t) ->
           mtime img = combine (date + 1) t).
Proof.
  intros Hon Ht Hr1 Hr2 Hread.
  split; [| split].
  - apply select_images_readable; try assumption; intros img Hin.
    + apply (Hread date img); [lia | exact Hin].
    + apply (Hread (date + 1) img); [lia | exact Hin].
  - apply select_images_readable; try assumption; intros img Hin.
    + apply (Hread (date + 1) img); [lia | exact Hin].
    + apply (Hread (date + 1 + 1) img); [lia | exact Hin].
  - intros img Himg. unfold tomorrow_part, today_part. split.
    + destruct (Z.leb_spec (mtime img) (combine (date + 1) t)) as [Hle | Hgt].
      * left. apply filter_In. split; [exact Himg |]. now apply Z.leb_le.
      * right. apply filter_In. split; [exact Himg |]. apply Z.leb_le. lia.
    + intros Hfirst Hsecond.
      apply filter_In in Hfirst as [_ Hle].
      apply filter_In in Hsecond as [_ Hge].
      apply Z.leb_le in Hle, Hge. lia.
Qed.

Lemma consecutive_mornings_share_a_folder_witness :
  fst (select_images Sample.world Sample.config Sample.jan1 Sample.fresh)
  = inr (today_part Sample.world Sample.config Sample.mtime_of Sample.jan1
           21600000000
         ++ tomorrow_part Sample.world Sample.config Sample.mtime_of
              Sample.jan1 21600000000)%list
  /\ fst (select_images Sample.world Sample.config (Sample.jan1 + 1) Sample.fresh)
     = inr (today_part Sample.world Sample.config Sample.mtime_of
              (Sample.jan1 + 1) 21600000000
            ++ tomorrow_part Sample.world Sample.config Sample.mtime_of
                 (Sample.jan1 + 1) 21600000000)%list.
Proof.
  pose proof (consecutive_mornings_share_a_folder Sample.world Sample.config
                Sample.mtime_of Sample.jan1 21600000000 Sample.fresh
                eq_refl eq_refl eq_refl eq_refl (fun d img _ _ => eq_refl))
    as [Hfirst [Hsecond _]].
  exact (conj Hfirst Hsecond).
Defined.
